(** * copra: REST request signing, dispatch, pagination and WebSocket channels

    A shallow embedding of [copra/rest.py] and [copra/websocket.py].
    Python values are modelled by the small universe of module [Py];
    coroutines are functions of an explicit [world] (wall clock, remote
    server, log of transmitted requests) in a state-and-exception monad;
    the Python and third-party library routines the code calls without
    inspecting (urllib, base64, hmac/hashlib) are fields of the class
    [Runtime], with executable instances in module [Lib]. *)

From Stdlib Require Import ZArith NArith List String Ascii Bool Lia.
From stdpp Require Import base decidable option list gmap strings pretty.

Local Set Warnings "-register-all".
Local Open Scope Z_scope.
Local Open Scope string_scope.
Local Open Scope list_scope.

(* ===================================================================== *)
(** ** Python values *)
(* ===================================================================== *)

Module Py.

(** [bytes]. *)
Definition bytes := list Byte.byte.

(** A [str] is a Rocq string whose characters are read as the code
    points 0..255. *)
Definition code (c : ascii) : N := N_of_ascii c.

(** [str.lower()] on that range: A-Z and the Latin-1 capitals
    U+00C0..U+00DE (but for the multiplication sign U+00D7) move up by 32. *)
Definition lower_char (c : ascii) : ascii :=
  let n := code c in
  if ((65 <=? n) && (n <=? 90))%N then ascii_of_N (n + 32)
  else if ((192 <=? n) && (n <=? 222) && negb (n =? 215))%N
       then ascii_of_N (n + 32)
  else c.

Fixpoint lower (s : string) : string :=
  match s with
  | EmptyString => EmptyString
  | String c r => String (lower_char c) (lower r)
  end.

(** [s.encode('ascii')]: [None] stands for UnicodeEncodeError. *)
Fixpoint encode_ascii (s : string) : option bytes :=
  match s with
  | EmptyString => Some []
  | String c r =>
      if (code c <? 128)%N
      then (fun t => byte_of_ascii c :: t) <$> encode_ascii r
      else None
  end.

(** [bytes.decode('utf-8')] of bytes known to be ASCII. *)
Definition decode_ascii (b : bytes) : string :=
  string_of_list_ascii (map ascii_of_byte b).

(** Scalars.  A float is carried as the text [repr] prints for it, which
    identifies the double; [str] and [repr] agree on floats. *)
Inductive scalar :=
  | SNone
  | SBool (b : bool)
  | SInt (z : Z)
  | SFloat (repr : string)
  | SStr (s : string).

(** Values that travel in request bodies and responses.  A dict keeps
    its insertion order. *)
Inductive pyval :=
  | PScalar (s : scalar)
  | PList (l : list pyval)
  | PDict (d : list (string * pyval)).

Coercion PScalar : scalar >-> pyval.

(** Truth value testing, as done by [if x], [not x], [x and y]. *)
Definition truthy_scalar (s : scalar) : bool :=
  match s with
  | SNone => false
  | SBool b => b
  | SInt z => negb (Z.eqb z 0)
  | SFloat r => negb (String.eqb r "0.0" || String.eqb r "-0.0")
  | SStr s => negb (String.eqb s EmptyString)
  end.

Definition truthy (v : pyval) : bool :=
  match v with
  | PScalar s => truthy_scalar s
  | PList l => match l with [] => false | _ => true end
  | PDict d => match d with [] => false | _ => true end
  end.

(** [str(x)], also what ['{}'.format(x)] inserts. *)
Definition py_str (s : scalar) : string :=
  match s with
  | SNone => "None"
  | SBool true => "True"
  | SBool false => "False"
  | SInt z => pretty z
  | SFloat r => r
  | SStr s => s
  end.

(** *** Dictionaries with string keys, in insertion order *)

Definition dict (V : Type) := list (string * V).

Fixpoint dict_get {V} (k : string) (d : dict V) : option V :=
  match d with
  | [] => None
  | (k', v) :: r => if String.eqb k' k then Some v else dict_get k r
  end.

(** [d[k] = v]: overwrite in place, or append a new key. *)
Fixpoint dict_set {V} (k : string) (v : V) (d : dict V) : dict V :=
  match d with
  | [] => [(k, v)]
  | (k', v') :: r =>
      if String.eqb k' k then (k', v) :: r else (k', v') :: dict_set k v r
  end.

(** [d.update(e)]. *)
Definition dict_update {V} (d e : dict V) : dict V :=
  fold_left (fun acc kv => dict_set (fst kv) (snd kv) acc) e d.

(** *** json.dumps with its default arguments *)

(** The double quote character, as a one-character string. *)
Definition dquote : string := String (ascii_of_N 34) EmptyString.

Definition hex_digit (n : N) : ascii :=
  if (n <? 10)%N then ascii_of_N (48 + n) else ascii_of_N (87 + n).

(** One character of a JSON string under [ensure_ascii=True]: quote,
    backslash and everything outside space..tilde are escaped. *)
Definition json_escape_char (c : ascii) : string :=
  let n := code c in
  if (n =? 34)%N then "\" +:+ dquote
  else if (n =? 92)%N then "\\"
  else if (n =? 10)%N then "\n"
  else if (n =? 13)%N then "\r"
  else if (n =? 9)%N then "\t"
  else if (n =? 8)%N then "\b"
  else if (n =? 12)%N then "\f"
  else if ((32 <=? n) && (n <=? 126))%N then String c EmptyString
  else "\u00" +:+ String (hex_digit (n / 16)) (String (hex_digit (n mod 16)) EmptyString).

Fixpoint json_escape (s : string) : string :=
  match s with
  | EmptyString => EmptyString
  | String c r => json_escape_char c +:+ json_escape r
  end.

Definition json_string (s : string) : string :=
  dquote +:+ json_escape s +:+ dquote.

Definition json_scalar (s : scalar) : string :=
  match s with
  | SNone => "null"
  | SBool true => "true"
  | SBool false => "false"
  | SInt z => pretty z
  | SFloat r =>
      if String.eqb r "inf" then "Infinity"
      else if String.eqb r "-inf" then "-Infinity"
      else if String.eqb r "nan" then "NaN"
      else r
  | SStr s => json_string s
  end.

(** Items are separated by [", "] and keys from values by [": "]. *)
Fixpoint json_dumps (v : pyval) : string :=
  match v with
  | PScalar s => json_scalar s
  | PList l =>
      "[" +:+
      (fix items (l : list pyval) : string :=
         match l with
         | [] => EmptyString
         | x :: r =>
             json_dumps x +:+
             match r with [] => EmptyString | _ => ", " +:+ items r end
         end) l +:+ "]"
  | PDict d =>
      "{" +:+
      (fix items (d : list (string * pyval)) : string :=
         match d with
         | [] => EmptyString
         | (k, x) :: r =>
             json_string k +:+ ": " +:+ json_dumps x +:+
             match r with [] => EmptyString | _ => ", " +:+ items r end
         end) d +:+ "}"
  end.

End Py.

Import Py.

(* ===================================================================== *)
(** ** Library routines the client relies on *)
(* ===================================================================== *)

(** What [rest.py] takes from outside its own text: the user agent string
    (built from the interpreter and package versions), [urllib.parse.urlencode],
    [base64.b64decode] applied to a [str] ([None] when it raises),
    [base64.b64encode] and [hmac.new(key, msg, hashlib.sha256).digest()]. *)
Class Runtime := {
  USER_AGENT : string;
  urlencode : dict scalar -> string;
  b64decode : string -> option bytes;
  b64encode : bytes -> bytes;
  hmac_sha256 : bytes -> bytes -> bytes
}.

(** Executable instances of these routines. *)
Module Lib.

Local Open Scope Z_scope.

Definition Z_of_byte (b : Byte.byte) : Z := Z.of_N (Byte.to_N b).

Definition byte_of_Z (z : Z) : Byte.byte :=
  match Byte.of_N (Z.to_N (z mod 256)) with
  | Some b => b
  | None => Byte.x00
  end.

(** The code points of a text. *)
Definition ascii_bytes (s : string) : list Z :=
  map (fun c => Z.of_N (code c)) (list_ascii_of_string s).

(** *** SHA-256 (FIPS 180-4) on 32-bit words held in [Z] *)

Definition w32 (x : Z) : Z := x mod 2 ^ 32.
Definition add32 (x y : Z) : Z := w32 (x + y).
Definition rotr (n x : Z) : Z :=
  Z.lor (Z.shiftr x n) (w32 (Z.shiftl x (32 - n))).
Definition not32 (x : Z) : Z := Z.lxor x 0xffffffff.

Definition Ch (x y z : Z) : Z := Z.lxor (Z.land x y) (Z.land (not32 x) z).
Definition Maj (x y z : Z) : Z :=
  Z.lxor (Z.lxor (Z.land x y) (Z.land x z)) (Z.land y z).
Definition bsig0 (x : Z) : Z := Z.lxor (Z.lxor (rotr 2 x) (rotr 13 x)) (rotr 22 x).
Definition bsig1 (x : Z) : Z := Z.lxor (Z.lxor (rotr 6 x) (rotr 11 x)) (rotr 25 x).
Definition ssig0 (x : Z) : Z := Z.lxor (Z.lxor (rotr 7 x) (rotr 18 x)) (Z.shiftr x 3).
Definition ssig1 (x : Z) : Z := Z.lxor (Z.lxor (rotr 17 x) (rotr 19 x)) (Z.shiftr x 10).

(** The constants are taken from the primes 2, 3, 5, ...: the first 32
    bits of the fractional part of the cube root of each of the first 64
    (round constants) and of the square root of each of the first 8
    (initial hash value). *)
Definition is_prime (n : Z) : bool :=
  forallb (fun d => negb (n mod d =? 0)) (seqZ 2 (n - 2)).

Definition primes64 : list Z :=
  Eval vm_compute in filter (fun n => is_prime n = true) (seqZ 2 310).

(** Integer cube root, one bit at a time from the top. *)
Definition icbrt (n : Z) : Z :=
  fold_left
    (fun r i => let r' := r + 2 ^ i in if r' ^ 3 <=? n then r' else r)
    (rev (seqZ 0 40)) 0.

Definition K256 : list Z :=
  Eval vm_compute in map (fun p => icbrt (p * 2 ^ 96) mod 2 ^ 32) primes64.

Definition H256 : list Z :=
  Eval vm_compute in
    map (fun p => Z.sqrt (p * 2 ^ 64) mod 2 ^ 32) (take 8 primes64).

(** Big-endian packing. *)
Fixpoint be_word (bs : list Z) (acc : Z) : Z :=
  match bs with
  | [] => acc
  | b :: r => be_word r (acc * 256 + b)
  end.

Fixpoint be_bytes (n : nat) (x : Z) : list Z :=
  match n with
  | O => []
  | S n' => be_bytes n' (x / 256) ++ [x mod 256]
  end.

Fixpoint chunks {A} (fuel k : nat) (l : list A) : list (list A) :=
  match fuel, l with
  | O, _ | _, [] => []
  | S f, _ => take k l :: chunks f k (drop k l)
  end.

(** Message padding: a one bit, zeros, then the bit length on 64 bits. *)
Definition sha_pad (msg : list Z) : list Z :=
  let len := Z.of_nat (length msg) in
  let zeros := Z.to_nat ((55 - len) mod 64) in
  msg ++ [0x80] ++ repeat 0 zeros ++ be_bytes 8 (8 * len).

(** Message schedule: [ws] holds the words computed so far. *)
Fixpoint schedule (n : nat) (ws : list Z) : list Z :=
  match n with
  | O => ws
  | S n' =>
      let i := length ws in
      let g (k : nat) := nth (i - k) ws 0 in
      schedule n'
        (ws ++ [add32 (add32 (ssig1 (g 2%nat)) (g 7%nat))
                      (add32 (ssig0 (g 15%nat)) (g 16%nat))])
  end.

Definition regs := (Z * Z * Z * Z * Z * Z * Z * Z)%type.

Definition round (s : regs) (kw : Z * Z) : regs :=
  let '(a, b, c, d, e, f, g, h) := s in
  let t1 := add32 (add32 (add32 h (bsig1 e)) (add32 (Ch e f g) (fst kw))) (snd kw) in
  let t2 := add32 (bsig0 a) (Maj a b c) in
  (add32 t1 t2, a, b, c, add32 d t1, e, f, g).

Definition regs_of (hs : list Z) : regs :=
  match hs with
  | [a; b; c; d; e; f; g; h] => (a, b, c, d, e, f, g, h)
  | _ => (0, 0, 0, 0, 0, 0, 0, 0)
  end.

Definition list_of_regs (s : regs) : list Z :=
  let '(a, b, c, d, e, f, g, h) := s in [a; b; c; d; e; f; g; h].

Definition compress (hs : list Z) (block : list Z) : list Z :=
  let ws := schedule 48 (map (fun q => be_word q 0) (chunks 16 4 block)) in
  let out := fold_left round (combine K256 ws) (regs_of hs) in
  map (fun p => add32 (fst p) (snd p)) (combine hs (list_of_regs out)).

Definition sha256_Z (msg : list Z) : list Z :=
  let padded := sha_pad msg in
  let hs := fold_left compress (chunks (length padded) 64 padded) H256 in
  concat (map (be_bytes 4) hs).

Definition sha256 (msg : bytes) : bytes :=
  map byte_of_Z (sha256_Z (map Z_of_byte msg)).

(** *** HMAC (RFC 2104) over SHA-256, block size 64 *)

Definition hmac_sha256_Z (key msg : list Z) : list Z :=
  let k0 := if (64 <? Z.of_nat (length key)) then sha256_Z key else key in
  let k := k0 ++ repeat 0 (64 - length k0) in
  let ipad := map (fun b => Z.lxor b 0x36) k in
  let opad := map (fun b => Z.lxor b 0x5c) k in
  sha256_Z (opad ++ sha256_Z (ipad ++ msg)).

Definition hmac_sha256_digest (key msg : bytes) : bytes :=
  map byte_of_Z (hmac_sha256_Z (map Z_of_byte key) (map Z_of_byte msg)).

(** *** Base64 (RFC 4648, standard alphabet, padded) *)

Definition b64_char (n : Z) : Z :=
  if n <? 26 then 65 + n
  else if n <? 52 then 97 + (n - 26)
  else if n <? 62 then 48 + (n - 52)
  else if n =? 62 then 43 else 47.

Definition b64_val (c : Z) : option Z :=
  if (65 <=? c) && (c <=? 90) then Some (c - 65)
  else if (97 <=? c) && (c <=? 122) then Some (c - 97 + 26)
  else if (48 <=? c) && (c <=? 57) then Some (c - 48 + 52)
  else if c =? 43 then Some 62
  else if c =? 47 then Some 63
  else None.

Fixpoint b64encode_Z (l : list Z) : list Z :=
  match l with
  | [] => []
  | [a] =>
      [b64_char (a / 4); b64_char (a mod 4 * 16); 61; 61]
  | [a; b] =>
      [b64_char (a / 4); b64_char (a mod 4 * 16 + b / 16);
       b64_char (b mod 16 * 4); 61]
  | a :: b :: c :: r =>
      b64_char (a / 4) :: b64_char (a mod 4 * 16 + b / 16)
      :: b64_char (b mod 16 * 4 + c / 64) :: b64_char (c mod 64)
      :: b64encode_Z r
  end.

Definition b64encode_bytes (b : bytes) : bytes :=
  map byte_of_Z (b64encode_Z (map Z_of_byte b)).

(** [binascii.a2b_base64] as [base64.b64decode] calls it (not strict):
    characters outside the alphabet are skipped; a pad character counts
    only from the third place of a quad on, and the pad that completes
    the quad ends the input; data left over in an unfinished quad is an
    error.  [quad_pos] is the place in the quad, [leftchar] the bits not
    yet written out, [pads] the pad characters seen in this quad. *)
Fixpoint a2b_base64 (l : list Z) (quad_pos leftchar pads : Z)
    (out : list Z) : option (list Z) :=
  match l with
  | [] => if quad_pos =? 0 then Some (rev out) else None
  | c :: r =>
      if c =? 61 then
        if (2 <=? quad_pos) && (4 <=? quad_pos + (pads + 1))
        then Some (rev out)
        else a2b_base64 r quad_pos leftchar
               (if 2 <=? quad_pos then pads + 1 else pads) out
      else
        match b64_val c with
        | None => a2b_base64 r quad_pos leftchar pads out
        | Some v =>
            if quad_pos =? 0 then a2b_base64 r 1 v 0 out
            else if quad_pos =? 1
            then a2b_base64 r 2 (v mod 16) 0 (leftchar * 4 + v / 16 :: out)
            else if quad_pos =? 2
            then a2b_base64 r 3 (v mod 4) 0 (leftchar * 16 + v / 4 :: out)
            else a2b_base64 r 0 0 0 (leftchar * 64 + v :: out)
        end
  end.

Definition b64decode_Z (l : list Z) : option (list Z) :=
  a2b_base64 l 0 0 0 [].

(** [base64.b64decode(s)] for a [str]: the text is first encoded to
    ASCII, which fails when a character is outside it. *)
Definition b64decode_str (s : string) : option bytes :=
  if forallb (fun c => c <? 128) (ascii_bytes s)
  then map byte_of_Z <$> b64decode_Z (ascii_bytes s)
  else None.

(** *** urllib.parse.urlencode: [quote_plus] of [str] of keys and values *)

Definition url_safe (n : N) : bool :=
  (((65 <=? n) && (n <=? 90)) || ((97 <=? n) && (n <=? 122))
   || ((48 <=? n) && (n <=? 57))
   || (n =? 95) || (n =? 46) || (n =? 45) || (n =? 126))%N.

Definition upper_hex (n : N) : ascii :=
  if (n <? 10)%N then ascii_of_N (48 + n) else ascii_of_N (55 + n).

Definition percent (n : N) : string :=
  String "%" (String (upper_hex (n / 16)) (String (upper_hex (n mod 16)) EmptyString)).

(** Code points from 128 on are sent as their two UTF-8 bytes. *)
Definition quote_plus_char (c : ascii) : string :=
  let n := code c in
  if url_safe n then String c EmptyString
  else if (n =? 32)%N then "+"
  else if (n <? 128)%N then percent n
  else percent (192 + n / 64) +:+ percent (128 + n mod 64).

Fixpoint quote_plus (s : string) : string :=
  match s with
  | EmptyString => EmptyString
  | String c r => quote_plus_char c +:+ quote_plus r
  end.

Fixpoint urlencode_pairs (d : dict scalar) : string :=
  match d with
  | [] => EmptyString
  | (k, v) :: r =>
      quote_plus k +:+ "=" +:+ quote_plus (py_str v) +:+
      match r with [] => EmptyString | _ => "&" +:+ urlencode_pairs r end
  end.

(** The routines of a CPython 3 installation, for a given user agent. *)
Definition cpython (user_agent : string) : Runtime :=
  {| USER_AGENT := user_agent;
     urlencode := urlencode_pairs;
     b64decode := b64decode_str;
     b64encode := b64encode_bytes;
     hmac_sha256 := hmac_sha256_digest |}.

End Lib.

(* ===================================================================== *)
(** ** copra/rest.py *)
(* ===================================================================== *)

Module Rest.

(** What [aiohttp] is handed for one call: the method name, the url, the
    [data] keyword (absent for GET and DELETE) and the headers. *)
Record request := {
  rq_method : string;
  rq_url : string;
  rq_data : option string;
  rq_headers : dict string
}.

(** An [aiohttp.ClientResponse]: the status, the headers in the order and
    spelling in which [resp.headers], a case-insensitive multidict,
    lists them, and what [json()] returns ([None] when it raises
    instead). *)
Record response := {
  status : Z;
  headers : list (string * string);
  json : option pyval
}.

Inductive exn :=
  | ValueError (msg : string)
  | UnicodeEncodeError
  | BinasciiError
  | JSONError
  | KeyError (k : string)
  | TypeError
  | APIRequestError (msg : string) (resp : response).

Inductive result (A : Type) :=
  | Ok (a : A)
  | Raise (e : exn).
Arguments Ok {A} a.
Arguments Raise {A} e.

(** The environment of a call: the reading of [time.time()] (a float, by
    its repr), the remote server, and the requests transmitted so far. *)
Record world := {
  now : string;
  server : request -> response;
  sent : list request
}.

(** Coroutines: state passing over [world] with exceptions. *)
Definition M (A : Type) : Type := world -> result A * world.

Definition ret {A} (a : A) : M A := fun w => (Ok a, w).
Definition raise {A} (e : exn) : M A := fun w => (Raise e, w).
Definition bind {A B} (c : M A) (k : A -> M B) : M B :=
  fun w =>
    match c w with
    | (Ok a, w') => k a w'
    | (Raise e, w') => (Raise e, w')
    end.
Definition or_raise {A} (e : exn) (o : option A) : M A :=
  match o with
  | Some a => ret a
  | None => raise e
  end.

Notation "x <- c ;; k" := (bind c (fun x => k))
  (at level 100, c at next level, right associativity).
Notation "c ;; k" := (bind c (fun _ => k))
  (at level 100, right associativity).

(** [time.time()]. *)
Definition time_time : M scalar := fun w => (Ok (SFloat (now w)), w).

(** [await getattr(self.session, method)(url, data=..., headers=...)]:
    the request goes out and the server's response comes back. *)
Definition session_call (method url : string) (data : option string)
    (hdrs : dict string) : M response :=
  fun w =>
    let rq := {| rq_method := method; rq_url := url;
                 rq_data := data; rq_headers := hdrs |} in
    (Ok (server w rq),
     {| now := now w; server := server w; sent := sent w ++ [rq] |}).

(** [await resp.json()]. *)
Definition response_json (resp : response) : M pyval :=
  or_raise JSONError (json resp).

(** [resp.headers[k]] on the case-insensitive multidict: the first value
    whose key matches. *)
Fixpoint ci_getone (k : string) (hs : list (string * string)) : option string :=
  match hs with
  | [] => None
  | (k', v) :: r =>
      if String.eqb (lower k') (lower k) then Some v else ci_getone k r
  end.

(** [dict(resp.headers)]: [dict] asks the mapping for its keys and then
    for the item of each; the multidict lists every name as received
    and answers [resp.headers[key]] with the first value whose name
    matches whatever the case.  The statements about the returned
    headers are made for responses that are [case_consistent], where
    the copy does not depend on how names that differ only by case are
    treated. *)
Definition dict_of_headers (hs : list (string * string)) : dict string :=
  fold_left
    (fun d kv =>
       match ci_getone (fst kv) hs with
       | Some v => dict_set (fst kv) v d
       | None => d
       end)
    hs [].

(** No two header names of the response differ only by case. *)
Definition case_consistent (hs : list (string * string)) : Prop :=
  forall k1 k2, k1 ∈ hs.*1 -> k2 ∈ hs.*1 -> lower k1 = lower k2 -> k1 = k2.

(** [if params:] on [None], a dict or a multidict. *)
Definition truthy_params (params : option (dict scalar)) : bool :=
  match params with
  | Some (_ :: _) => true
  | _ => false
  end.

(** A [CIMultiDict] of query parameters.  [update] and item assignment
    drop what was stored under the key, whatever its case, and store the
    new pairs (where an overwritten key stood is not tracked: the keys
    written by this module are all distinct). *)
Definition cimd_remove (k : string) (m : dict scalar) : dict scalar :=
  filter (fun kv => negb (String.eqb (lower (fst kv)) (lower k))) m.

Definition cimd_update (m items : dict scalar) : dict scalar :=
  fold_left (fun acc kv => cimd_remove (fst kv) acc) items m ++ items.

Definition cimd_setitem (k : string) (v : scalar) (m : dict scalar) : dict scalar :=
  cimd_update m [(k, v)].

Section WithRuntime.
Context {rt : Runtime}.

Definition HEADERS : dict string := [("USER-AGENT", USER_AGENT)].

(** *** class BaseClient *)

(** The overridable [handle_error] hook. *)
Definition handler := response -> M unit.

Definition BaseClient_handle_error : handler := fun _ => ret tt.

Definition _request (handle_error : handler) (method url : string)
    (data : option string) (hdrs : dict string) : M response :=
  if negb (bool_decide (method ∈ ["delete"; "get"; "post"]))
  then raise (ValueError ("Inavlid method " +:+ method +:+
                          ". Must be delete, get, or post"))
  else
    resp <- session_call method url data hdrs ;;
    (if (400 <=? status resp)%Z then handle_error resp else ret tt) ;;
    ret resp.

(** [if params: url += '?{}'.format(urllib.parse.urlencode(params))]. *)
Definition with_query (url : string) (params : option (dict scalar)) : string :=
  if truthy_params params
  then url +:+ "?" +:+ urlencode (default [] params)
  else url.

Definition BaseClient_delete (handle_error : handler) (url : string)
    (params : option (dict scalar)) (hdrs : dict string) : M response :=
  _request handle_error "delete" (with_query url params) None hdrs.

Definition BaseClient_get (handle_error : handler) (url : string)
    (params : option (dict scalar)) (hdrs : dict string) : M response :=
  _request handle_error "get" (with_query url params) None hdrs.

Definition BaseClient_post (handle_error : handler) (url : string)
    (data : pyval) (hdrs : dict string) : M response :=
  let data := if truthy data then json_dumps data else EmptyString in
  _request handle_error "post" url (Some data) hdrs.

(** *** class Client(BaseClient) *)

Record Client := {
  url : string;
  auth : bool;
  key : string;
  secret : string;
  passphrase : string
}.

Definition nonempty (s : string) : bool := negb (String.eqb s EmptyString).

Definition Client_init (url : string) (auth : bool)
    (key secret passphrase : string) : result Client :=
  if auth && negb (nonempty key && nonempty secret && nonempty passphrase)
  then Raise (ValueError "auth requires key, secret, and passphrase")
  else Ok {| url := url; auth := auth; key := key;
             secret := secret; passphrase := passphrase |}.

(** What a failing [base64.b64decode(s)] raises for a [str] s:
    ValueError when s does not encode to ASCII, [binascii.Error] when
    the text is not base64. *)
Definition b64decode_error (s : string) : exn :=
  match encode_ascii s with
  | None => ValueError "string argument should contain only ASCII characters"
  | Some _ => BinasciiError
  end.

(** The text that is signed. *)
Definition auth_message (timestamp method path body : string) : string :=
  timestamp +:+ method +:+ path +:+ body.

Definition get_auth_headers (self : Client) (path method : string)
    (body : pyval) (timestamp : scalar) : M (dict string) :=
  if negb (auth self)
  then raise (ValueError "client is not properly configured for authorization")
  else
    let body := if truthy body then json_dumps body else EmptyString in
    timestamp <- (if negb (truthy_scalar timestamp) then time_time
                  else ret timestamp) ;;
    let timestamp := py_str timestamp in
    let message := auth_message timestamp method path body in
    message <- or_raise UnicodeEncodeError (encode_ascii message) ;;
    hmac_key <- or_raise (b64decode_error (secret self))
                  (b64decode (secret self)) ;;
    let signature := hmac_sha256 hmac_key message in
    let signature_b64 := decode_ascii (b64encode signature) in
    ret [ ("USER-AGENT", USER_AGENT);
          ("Content-Type", "Application/JSON");
          ("CB-ACCESS-SIGN", signature_b64);
          ("CB-ACCESS-TIMESTAMP", timestamp);
          ("CB-ACCESS-KEY", key self);
          ("CB-ACCESS-PASSPHRASE", passphrase self) ].

(** [body['message']]. *)
Definition subscript (body : pyval) (k : string) : M pyval :=
  match body with
  | PDict d => or_raise (KeyError k) (dict_get k d)
  | _ => raise TypeError
  end.

(** [x + s] for a [str] s. *)
Definition add_str (x : pyval) (s : string) : M string :=
  match x with
  | PScalar (SStr m) => ret (m +:+ s)
  | _ => raise TypeError
  end.

Definition Client_handle_error : handler := fun resp =>
  body <- response_json resp ;;
  m <- subscript body "message" ;;
  msg <- add_str m (" [" +:+ py_str (SInt (status resp)) +:+ "]") ;;
  raise (APIRequestError msg resp).

Definition Client_delete (self : Client) (path : string)
    (params : option (dict scalar)) (auth : bool)
    : M (dict string * pyval) :=
  req_headers <- (if auth
                  then get_auth_headers self path "DELETE" (PDict []) SNone
                  else ret HEADERS) ;;
  resp <- BaseClient_delete Client_handle_error (url self +:+ path)
            params req_headers ;;
  body <- response_json resp ;;
  let hdrs := dict_of_headers (headers resp) in
  ret (hdrs, body).

Definition Client_get (self : Client) (path : string)
    (params : option (dict scalar)) (auth : bool)
    : M (dict string * pyval) :=
  req_headers <- (if auth
                  then get_auth_headers self path "GET" (PDict []) SNone
                  else ret HEADERS) ;;
  resp <- BaseClient_get Client_handle_error (url self +:+ path)
            params req_headers ;;
  body <- response_json resp ;;
  let hdrs := dict_of_headers (headers resp) in
  ret (hdrs, body).

Definition Client_post (self : Client) (path : string) (data : pyval)
    (auth : bool) : M (dict string * pyval) :=
  req_headers <- (if auth
                  then get_auth_headers self path "POST" data SNone
                  else ret HEADERS) ;;
  resp <- BaseClient_post Client_handle_error (url self +:+ path)
            data req_headers ;;
  body <- response_json resp ;;
  let hdrs := dict_of_headers (headers resp) in
  ret (hdrs, body).

(** *** Paginated endpoints

    Each returns the 3-tuple (body, before cursor, after cursor); a
    cursor that [headers.get] does not find is [None]. *)

Definition page := (pyval * option string * option string)%type.

Definition both_cursors : exn :=
  ValueError "before and after cannot both be provided.".

Definition paginate (r : dict string * pyval) : M page :=
  let '(hdrs, body) := r in
  ret (body, dict_get "cb-before" hdrs, dict_get "cb-after" hdrs).

Definition trades (self : Client) (product_id limit before after : scalar)
    : M page :=
  if truthy_scalar before && truthy_scalar after then raise both_cursors
  else
    let params := [("limit", limit)] in
    let params := if truthy_scalar before
                  then dict_update params [("before", before)] else params in
    let params := if truthy_scalar after
                  then dict_update params [("after", after)] else params in
    r <- Client_get self ("/products/" +:+ py_str product_id +:+ "/trades")
           (Some params) false ;;
    paginate r.

Definition account_history (self : Client)
    (account_id limit before after : scalar) : M page :=
  if truthy_scalar before && truthy_scalar after then raise both_cursors
  else
    let params := [("limit", limit)] in
    let params := if truthy_scalar before
                  then dict_update params [("before", before)] else params in
    let params := if truthy_scalar after
                  then dict_update params [("after", after)] else params in
    r <- Client_get self ("/accounts/" +:+ py_str account_id +:+ "/ledger")
           (Some params) true ;;
    paginate r.

Definition holds (self : Client) (account_id limit before after : scalar)
    : M page :=
  if truthy_scalar before && truthy_scalar after then raise both_cursors
  else
    let params := [("limit", limit)] in
    let params := if truthy_scalar before
                  then dict_update params [("before", before)] else params in
    let params := if truthy_scalar after
                  then dict_update params [("after", after)] else params in
    r <- Client_get self ("/accounts/" +:+ py_str account_id +:+ "/holds")
           (Some params) true ;;
    paginate r.

(** The [status] argument of [orders]: [None], one string, or a list. *)
Inductive status_arg :=
  | StNone
  | StStr (s : string)
  | StList (l : list string).

Definition truthy_status (st : status_arg) : bool :=
  match st with
  | StNone => false
  | StStr s => nonempty s
  | StList l => match l with [] => false | _ => true end
  end.

(** The loop over the status values: the first one that is not known
    raises. *)
Fixpoint check_statuses (l : list string) : M unit :=
  match l with
  | [] => ret tt
  | value :: r =>
      if negb (bool_decide (value ∈ ["active"; "all"; "open"; "pending"]))
      then raise (ValueError ("Invalid status: " +:+ value))
      else check_statuses r
  end.

Definition orders (self : Client) (status : status_arg)
    (product_id limit before after : scalar) : M page :=
  if truthy_scalar before && truthy_scalar after then raise both_cursors
  else
    let params := [("limit", limit)] in
    let params := if truthy_scalar before
                  then cimd_update params [("before", before)] else params in
    let params := if truthy_scalar after
                  then cimd_update params [("after", after)] else params in
    params <- (if truthy_status status
               then
                 let status := match status with
                               | StStr s => [s]
                               | StList l => l
                               | StNone => []
                               end in
                 check_statuses status ;;
                 ret (cimd_update params
                        (map (fun value => ("status", SStr value)) status))
               else ret params) ;;
    let params := if truthy_scalar product_id
                  then cimd_setitem "product_id" product_id params
                  else params in
    r <- Client_get self "/orders" (Some params) true ;;
    paginate r.

Definition fills (self : Client)
    (order_id product_id limit before after : scalar) : M page :=
  if truthy_scalar before && truthy_scalar after then raise both_cursors
  else if negb (truthy_scalar order_id) && negb (truthy_scalar product_id)
  then raise (ValueError "Either order_id or product_id must be defined.")
  else if truthy_scalar order_id && truthy_scalar product_id
  then raise (ValueError "order_id or product_id cannot both be sent.")
  else
    let params := [("limit", limit)] in
    let params := if truthy_scalar before
                  then cimd_setitem "before" before params else params in
    let params := if truthy_scalar after
                  then cimd_setitem "after" after params else params in
    let params := if truthy_scalar order_id
                  then cimd_setitem "order_id" order_id params else params in
    let params := if truthy_scalar product_id
                  then cimd_setitem "product_id" product_id params
                  else params in
    r <- Client_get self "/fills" (Some params) true ;;
    paginate r.

(** *** Vocabulary of the statements below *)

(** A call of one of the three request methods of [Client]. *)
Inductive rest_call (self : Client) : M (dict string * pyval) -> Prop :=
  | call_delete path params auth :
      rest_call self (Client_delete self path params auth)
  | call_get path params auth :
      rest_call self (Client_get self path params auth)
  | call_post path data auth :
      rest_call self (Client_post self path data auth).

(** A call of one of the five paginated endpoint methods. *)
Inductive paginated_call (self : Client) : M page -> Prop :=
  | call_trades product_id limit before after :
      paginated_call self (trades self product_id limit before after)
  | call_account_history account_id limit before after :
      paginated_call self (account_history self account_id limit before after)
  | call_holds account_id limit before after :
      paginated_call self (holds self account_id limit before after)
  | call_orders status product_id limit before after :
      paginated_call self (orders self status product_id limit before after)
  | call_fills order_id product_id limit before after :
      paginated_call self (fills self order_id product_id limit before after).

(** The signature header value for a decoded key and an encoded message. *)
Definition signature_text (hmac_key message : bytes) : string :=
  decode_ascii (b64encode (hmac_sha256 hmac_key message)).

(** *** The other endpoint methods *)

(** [x in ('a', 'b', ...)] and [x == 'a'] for string constants: only a
    [str] compares equal to one. *)
Definition scalar_in (x : scalar) (l : list string) : bool :=
  match x with
  | SStr s => bool_decide (s ∈ l)
  | _ => false
  end.

Definition scalar_is (x : scalar) (s : string) : bool := scalar_in x [s].

(** [x in (1, 2, ...)] for small integer constants: an int, a bool
    (True is 1, False is 0) or the float of that value, whose repr is
    the integer followed by [.0], compares equal to one. *)
Definition scalar_in_ints (x : scalar) (l : list Z) : bool :=
  match x with
  | SInt z => bool_decide (z ∈ l)
  | SBool b => bool_decide ((if b then 1 else 0) ∈ l)
  | SFloat r => existsb (fun n => String.eqb r (pretty n +:+ ".0")) l
  | _ => false
  end.

(** A computation that touches nothing. *)
Definition lift {A} (r : result A) : M A := fun w => (r, w).

Definition products (self : Client) : M pyval :=
  r <- Client_get self "/products" None false ;;
  ret (snd r).

Definition order_book (self : Client) (product_id level : scalar) : M pyval :=
  if negb (scalar_in_ints level [1; 2; 3])
  then raise (ValueError "level must be 1, 2, or 3")
  else
    r <- Client_get self ("/products/" +:+ py_str product_id +:+ "/book")
           (Some [("level", level)]) false ;;
    ret (snd r).

Definition ticker (self : Client) (product_id : scalar) : M pyval :=
  r <- Client_get self ("/products/" +:+ py_str product_id +:+ "/ticker")
         None false ;;
  ret (snd r).

Definition get_24hour_stats (self : Client) (product_id : scalar) : M pyval :=
  r <- Client_get self ("/products/" +:+ py_str product_id +:+ "/stats")
         None false ;;
  ret (snd r).

Definition currencies (self : Client) : M pyval :=
  r <- Client_get self "/currencies" None false ;;
  ret (snd r).

Definition server_time (self : Client) : M pyval :=
  r <- Client_get self "/time" None false ;;
  ret (snd r).

Definition accounts (self : Client) : M pyval :=
  r <- Client_get self "/accounts" None true ;;
  ret (snd r).

Definition account (self : Client) (account_id : scalar) : M pyval :=
  r <- Client_get self ("/accounts/" +:+ py_str account_id) None true ;;
  ret (snd r).

(** The validation and the body of [place_order], up to the request. *)
Definition place_order_data
    (side product_id order_type price size funds time_in_force cancel_after
     post_only stop stop_price client_oid stp : scalar)
    : result (dict pyval) :=
  if negb (scalar_in side ["buy"; "sell"])
  then Raise (ValueError ("Invalid side: " +:+ py_str side +:+
                          ". Must be either buy or sell"))
  else if negb (scalar_in order_type ["limit"; "market"])
  then Raise (ValueError ("Invalid order type: " +:+ py_str order_type +:+
                          ". Must be either market or limit"))
  else if truthy_scalar stop && negb (scalar_in stop ["loss"; "entry"])
  then Raise (ValueError ("Invalid stop: " +:+ py_str stop +:+
                          ". Must be either loss or entry."))
  else if truthy_scalar stop && negb (truthy_scalar stop_price)
  then Raise (ValueError "Stop orders must have stop_price set.")
  else if negb (scalar_in stp ["dc"; "co"; "cn"; "cb"])
  then Raise (ValueError ("Invalid stp: " +:+ py_str stp +:+
                          ". Must be dc, co, cn, or cb."))
  else
    let data : dict pyval :=
      [ ("side", PScalar side); ("product_id", PScalar product_id);
        ("order_type", PScalar order_type); ("stp", PScalar stp) ] in
    let data := if truthy_scalar stop
                then dict_update data [ ("stop", PScalar stop);
                                        ("stop_price", PScalar stop_price) ]
                else data in
    let data := if truthy_scalar client_oid
                then dict_set "client_oid" (PScalar client_oid) data
                else data in
    if scalar_is order_type "limit"
    then
      if negb (truthy_scalar price && truthy_scalar size)
      then Raise (ValueError "Limit orders must have both price and size set.")
      else if negb (scalar_in time_in_force ["GTC"; "GTT"; "IOC"; "FOK"])
      then Raise (ValueError "time_in_force must be GTC, GCC, IOC or FOK.")
      else if truthy_scalar cancel_after && negb (scalar_is time_in_force "GTT")
      then Raise (ValueError "cancel_after requires time_in_force to be GTT")
      else if truthy_scalar cancel_after
              && negb (scalar_in cancel_after ["min"; "hour"; "day"])
      then Raise (ValueError "cancel_after must be min, hour, or day")
      else
        let data := dict_update data
                      [ ("price", PScalar price); ("size", PScalar size);
                        ("time_in_force", PScalar time_in_force);
                        ("post_only", PScalar post_only) ] in
        let data := if truthy_scalar cancel_after
                    then dict_set "cancel_after" (PScalar cancel_after) data
                    else data in
        Ok data
    else
      if negb (truthy_scalar funds || truthy_scalar size)
      then Raise (ValueError "Market orders must have funds or size set.")
      else if truthy_scalar funds && truthy_scalar size
      then Raise (ValueError
                    "Market orders can't have both funds and size set.")
      else
        let data := if truthy_scalar size
                    then dict_set "size" (PScalar size) data else data in
        let data := if truthy_scalar funds
                    then dict_set "funds" (PScalar funds) data else data in
        Ok data.

Definition place_order (self : Client)
    (side product_id order_type price size funds time_in_force cancel_after
     post_only stop stop_price client_oid stp : scalar) : M pyval :=
  data <- lift (place_order_data side product_id order_type price size funds
                  time_in_force cancel_after post_only stop stop_price
                  client_oid stp) ;;
  r <- Client_post self "/orders" (PDict data) true ;;
  ret (snd r).

Definition cancel (self : Client) (order_id : scalar) : M pyval :=
  r <- Client_delete self ("/orders/" +:+ py_str order_id) None true ;;
  ret (snd r).

Definition cancel_all (self : Client) (product_id : scalar) : M pyval :=
  let params := if truthy_scalar product_id
                then [("product_id", product_id)] else [] in
  r <- Client_delete self "/orders" (Some params) true ;;
  ret (snd r).

Definition order (self : Client) (order_id : scalar) : M pyval :=
  r <- Client_get self ("/orders/" +:+ py_str order_id) None true ;;
  ret (snd r).

Definition payment_methods (self : Client) : M pyval :=
  r <- Client_get self "/payment-methods" None true ;;
  ret (snd r).

Definition coinbase_accounts (self : Client) : M pyval :=
  r <- Client_get self "/coinbase-accounts" None true ;;
  ret (snd r).

Definition deposit_payment_method (self : Client)
    (amount currency payment_method_id : scalar) : M pyval :=
  r <- Client_post self "/deposits/payment-method"
         (PDict [ ("amount", PScalar amount); ("currency", PScalar currency);
                  ("payment_method_id", PScalar payment_method_id) ])
         true ;;
  ret (snd r).

Definition deposit_coinbase (self : Client)
    (amount currency coinbase_account_id : scalar) : M pyval :=
  r <- Client_post self "/deposits/coinbase-account"
         (PDict [ ("amount", PScalar amount); ("currency", PScalar currency);
                  ("coinbase_account_id", PScalar coinbase_account_id) ])
         true ;;
  ret (snd r).

Definition withdraw_payment_method (self : Client)
    (amount currency payment_method_id : scalar) : M pyval :=
  r <- Client_post self "/withdrawals/payment-method"
         (PDict [ ("amount", PScalar amount); ("currency", PScalar currency);
                  ("payment_method_id", PScalar payment_method_id) ])
         true ;;
  ret (snd r).

Definition withdraw_coinbase (self : Client)
    (amount currency coinbase_account_id : scalar) : M pyval :=
  r <- Client_post self "/withdrawals/coinbase-account"
         (PDict [ ("amount", PScalar amount); ("currency", PScalar currency);
                  ("coinbase_account_id", PScalar coinbase_account_id) ])
         true ;;
  ret (snd r).

Definition withdraw_crypto (self : Client)
    (amount currency crypto_address : scalar) : M pyval :=
  r <- Client_post self "/withdrawals/crypto"
         (PDict [ ("amount", PScalar amount); ("currency", PScalar currency);
                  ("crypto_address", PScalar crypto_address) ])
         true ;;
  ret (snd r).

Definition stablecoin_conversion (self : Client)
    (from_currency_id to_currency_id amount : scalar) : M pyval :=
  r <- Client_post self "/conversions"
         (PDict [ ("from_currency_id", PScalar from_currency_id);
                  ("to_currency_id", PScalar to_currency_id);
                  ("amount", PScalar amount) ])
         true ;;
  ret (snd r).

(** The validation and the body of [create_report]. *)
Definition create_report_data
    (report_type start_date end_date product_id account_id report_format
     email : scalar) : result (dict pyval) :=
  if negb (scalar_in report_type ["account"; "fills"])
  then Raise (ValueError ("Invalid report_type: " +:+ py_str report_type +:+
                          ". Must be 'fills' or 'account'."))
  else if scalar_is report_type "fills" && negb (truthy_scalar product_id)
  then Raise (ValueError "product_id must be defined for report_type fills.")
  else if scalar_is report_type "account" && negb (truthy_scalar account_id)
  then Raise (ValueError
                "account_id must be defined for report_type account.")
  else if negb (scalar_in report_format ["csv"; "pdf"])
  then Raise (ValueError ("Invalid format " +:+ py_str report_format +:+
                          ". Must be either 'csv' or 'pdf'."))
  else
    let data : dict pyval :=
      [ ("report_type", PScalar report_type);
        ("start_date", PScalar start_date);
        ("end_date", PScalar end_date);
        ("report_format", PScalar report_format) ] in
    let data := if truthy_scalar product_id
                then dict_set "product_id" (PScalar product_id) data
                else data in
    let data := if truthy_scalar account_id
                then dict_set "account_id" (PScalar account_id) data
                else data in
    let data := if truthy_scalar email
                then dict_set "email" (PScalar email) data else data in
    Ok data.

Definition create_report (self : Client)
    (report_type start_date end_date product_id account_id report_format
     email : scalar) : M pyval :=
  data <- lift (create_report_data report_type start_date end_date
                  product_id account_id report_format email) ;;
  r <- Client_post self "/reports" (PDict data) true ;;
  ret (snd r).

Definition report_status (self : Client) (report_id : scalar) : M pyval :=
  r <- Client_get self ("/reports/" +:+ py_str report_id) None true ;;
  ret (snd r).

Definition trailing_volume (self : Client) : M pyval :=
  r <- Client_get self "/users/self/trailing-volume" None true ;;
  ret (snd r).

(** *** Vocabulary of the statements about all endpoints *)

(** The world after the request [rq] went out. *)
Definition after_send (w : world) (rq : request) : world :=
  {| now := now w; server := server w; sent := sent w ++ [rq] |}.

(** A request method of [Client] with what identifies its request: the
    [auth] flag, the method name that is signed, the path, the url that
    is requested, the body that is signed and the [data] keyword. *)
Inductive rest_call_at (self : Client)
    : bool -> string -> string -> string -> pyval -> option string ->
      M (dict string * pyval) -> Prop :=
  | at_delete path params a :
      rest_call_at self a "DELETE" path
        (with_query (url self +:+ path) params) (PDict []) None
        (Client_delete self path params a)
  | at_get path params a :
      rest_call_at self a "GET" path
        (with_query (url self +:+ path) params) (PDict []) None
        (Client_get self path params a)
  | at_post path data a :
      rest_call_at self a "POST" path (url self +:+ path) data
        (Some (if truthy data then json_dumps data else EmptyString))
        (Client_post self path data a).

(** The endpoints that hand the response body on as received: those
    that need no credentials, and those that do.  ([historic_rates],
    which filters the body it receives by dates parsed with [dateutil],
    is not among them.) *)
Inductive public_call (self : Client) : M pyval -> Prop :=
  | pub_products : public_call self (products self)
  | pub_order_book product_id level :
      public_call self (order_book self product_id level)
  | pub_ticker product_id : public_call self (ticker self product_id)
  | pub_get_24hour_stats product_id :
      public_call self (get_24hour_stats self product_id)
  | pub_currencies : public_call self (currencies self)
  | pub_server_time : public_call self (server_time self).

Inductive private_call (self : Client) : M pyval -> Prop :=
  | prv_accounts : private_call self (accounts self)
  | prv_account account_id : private_call self (account self account_id)
  | prv_place_order side product_id order_type price size funds
      time_in_force cancel_after post_only stop stop_price client_oid stp :
      private_call self
        (place_order self side product_id order_type price size funds
           time_in_force cancel_after post_only stop stop_price client_oid
           stp)
  | prv_cancel order_id : private_call self (cancel self order_id)
  | prv_cancel_all product_id : private_call self (cancel_all self product_id)
  | prv_order order_id : private_call self (order self order_id)
  | prv_payment_methods : private_call self (payment_methods self)
  | prv_coinbase_accounts : private_call self (coinbase_accounts self)
  | prv_deposit_payment_method amount currency payment_method_id :
      private_call self
        (deposit_payment_method self amount currency payment_method_id)
  | prv_deposit_coinbase amount currency coinbase_account_id :
      private_call self
        (deposit_coinbase self amount currency coinbase_account_id)
  | prv_withdraw_payment_method amount currency payment_method_id :
      private_call self
        (withdraw_payment_method self amount currency payment_method_id)
  | prv_withdraw_coinbase amount currency coinbase_account_id :
      private_call self
        (withdraw_coinbase self amount currency coinbase_account_id)
  | prv_withdraw_crypto amount currency crypto_address :
      private_call self (withdraw_crypto self amount currency crypto_address)
  | prv_stablecoin_conversion from_currency_id to_currency_id amount :
      private_call self
        (stablecoin_conversion self from_currency_id to_currency_id amount)
  | prv_create_report report_type start_date end_date product_id account_id
      report_format email :
      private_call self
        (create_report self report_type start_date end_date product_id
           account_id report_format email)
  | prv_report_status report_id :
      private_call self (report_status self report_id)
  | prv_trailing_volume : private_call self (trailing_volume self).

(** What a caller observes of a call: the exception, if any, and the
    world it leaves. *)
Definition observe {A} (c : M A) (w : world) : option exn * world :=
  match c w with
  | (Ok _, w') => (None, w')
  | (Raise e, w') => (Some e, w')
  end.

(** Every method of [Client] that performs a request, with [true] for
    those that ask for authentication. *)
Inductive endpoint (self : Client)
    : bool -> (world -> option exn * world) -> Prop :=
  | ep_rest a method path u body data call :
      rest_call_at self a method path u body data call ->
      endpoint self a (observe call)
  | ep_public call : public_call self call -> endpoint self false (observe call)
  | ep_private call :
      private_call self call -> endpoint self true (observe call)
  | ep_trades product_id limit before after :
      endpoint self false (observe (trades self product_id limit before after))
  | ep_account_history account_id limit before after :
      endpoint self true
        (observe (account_history self account_id limit before after))
  | ep_holds account_id limit before after :
      endpoint self true (observe (holds self account_id limit before after))
  | ep_orders status product_id limit before after :
      endpoint self true
        (observe (orders self status product_id limit before after))
  | ep_fills order_id product_id limit before after :
      endpoint self true
        (observe (fills self order_id product_id limit before after)).

(** The exceptions that arise while a request is prepared, and those
    that arise from the response [resp]. *)
Definition raised_before_sending (e : exn) : Prop :=
  match e with
  | ValueError _ | UnicodeEncodeError | BinasciiError => True
  | _ => False
  end.

Definition raised_from_response (resp : response) (e : exn) : Prop :=
  match e with
  | APIRequestError _ r => r = resp /\ (400 <= status resp)%Z
  | KeyError k => k = "message" /\ (400 <= status resp)%Z
  | TypeError => (400 <= status resp)%Z
  | JSONError => json resp = None
  | _ => False
  end.

End WithRuntime.

End Rest.

(* ===================================================================== *)
(** ** copra/websocket.py *)
(* ===================================================================== *)

Module WebSocket.

Definition FEED_URL : string := "wss://ws-feed.gdax.com".

Inductive exn :=
  | ValueError (msg : string).

(** *** class Channel *)

Record Channel := {
  name : string;
  product_ids : gset string
}.

Definition CHANNEL_NAMES : list string :=
  ["heartbeat"; "ticker"; "level2"; "full"; "matches"; "user"].

(** The [product_ids] argument: one product id or a list of them. *)
Inductive ids_arg :=
  | OneId (s : string)
  | ManyIds (l : list string).

(** [not product_ids] is true of the empty string and of the empty list. *)
Definition truthy_ids (a : ids_arg) : bool :=
  match a with
  | OneId s => negb (String.eqb s EmptyString)
  | ManyIds l => match l with [] => false | _ => true end
  end.

Definition Channel_init (name : string) (product_ids : ids_arg)
    : exn + Channel :=
  let self_name := lower name in
  if negb (bool_decide (self_name ∈ CHANNEL_NAMES))
  then inl (ValueError ("invalid name " +:+ name))
  else if negb (truthy_ids product_ids)
  then inl (ValueError "must include at least one product id")
  else
    let product_ids := match product_ids with
                       | OneId s => [s]
                       | ManyIds l => l
                       end in
    inr {| name := self_name; product_ids := list_to_set product_ids |}.

(** *** class Client(WebSocketClientFactory) *)

(** The [channels] argument: one Channel or a list of them. *)
Inductive channels_arg :=
  | OneChannel (c : Channel)
  | ManyChannels (l : list Channel).

Record Client := {
  _initial_channels : list Channel;
  feed_url : string;
  client_name : string;
  channels : gmap string Channel
}.

Definition Client_init (chans : channels_arg) (feed_url name : string)
    : Client :=
  let chans := match chans with
               | OneChannel c => [c]
               | ManyChannels l => l
               end in
  {| _initial_channels := chans;
     feed_url := feed_url;
     client_name := name;
     channels := ∅ |}.

(** *** The connection

    What is observable of one connection: the factory (the client with
    its registry), whether the opening handshake has completed, and the
    frames transmitted on it so far. *)
Inductive phase := Connecting | Open.

Record session := {
  factory : Client;
  conn : phase;
  frames : list string
}.

(** [Client.on_open]: the method has a docstring and no statement. *)
Definition on_open (s : session) : session := s.

(** [ClientProtocol.onOpen]: [self.factory.on_open()]. *)
Definition onOpen (s : session) : session := on_open s.

(** Completion of the opening handshake: the connection is open and the
    transport library fires [onOpen]. *)
Definition handshake_completed (s : session) : session :=
  onOpen {| factory := factory s; conn := Open; frames := frames s |}.

(** Evaluating [Channel(name, product_ids)] in a program that holds the
    session [s]: the constructor is given the two arguments only. *)
Definition new_channel (name : string) (product_ids : ids_arg)
    (s : session) : (exn + Channel) * session :=
  (Channel_init name product_ids, s).

(** What this module does to a session: the transport completes the
    opening handshake (which fires [onOpen], hence [on_open]), or the
    program constructs a Channel. *)
Inductive session_step : session -> session -> Prop :=
  | step_handshake s : session_step s (handshake_completed s)
  | step_new_channel name product_ids s :
      session_step s (snd (new_channel name product_ids s)).

(** [Channel.__call__]. *)
Definition Channel_call (self : Channel) : Channel := self.

(** [Channel.as_dict]; [set_order] is the order in which Python iterates
    over a set when [list(self.product_ids)] is built. *)
Definition as_dict (set_order : gset string -> list string) (self : Channel)
    : pyval :=
  PDict [ ("name", PScalar (SStr (name self)));
          ("product_ids",
           PList (map (fun s => PScalar (SStr s))
                    (set_order (product_ids self)))) ].

End WebSocket.

(* ===================================================================== *)
(** ** Concrete clients, requests and responses used in the examples *)
(* ===================================================================== *)

Module Fixtures.
Import Rest.

Definition py : Runtime := Lib.cpython "Python/3.7.0 copra/0.1.0".

(** [Client(loop, auth=True, key='k', secret='c2VjcmV0', passphrase='p')];
    the secret is the base64 text of the six bytes of [secret]. *)
Definition alice : Client :=
  {| url := "https://api.pro.coinbase.com"; auth := true;
     key := "k"; secret := "c2VjcmV0"; passphrase := "p" |}.

(** A client without credentials. *)
Definition anon : Client :=
  {| url := "https://api.pro.coinbase.com"; auth := false;
     key := EmptyString; secret := EmptyString; passphrase := EmptyString |}.

Definition side_buy : pyval := PDict [("side", PScalar (SStr "buy"))].

(** The text [1000.0POST/orders{"side": "buy"}]. *)
Definition orders_message : string :=
  "1000.0POST/orders{" +:+ dquote +:+ "side" +:+ dquote +:+ ": "
  +:+ dquote +:+ "buy" +:+ dquote +:+ "}".

Definition respond (r : response) (clock : string) : world :=
  {| now := clock; server := fun _ => r; sent := [] |}.

Definition ok_empty : response :=
  {| status := 200; headers := []; json := Some (PList []) |}.

(** A page whose only cursor header is [cb-after: 100]. *)
Definition page_after_100 : response :=
  {| status := 200;
     headers := [("Content-Type", "application/json"); ("cb-after", "100")];
     json := Some (PList [PScalar (SInt 1)]) |}.

(** The same page from a server that spells the header in capitals. *)
Definition page_upper : response :=
  {| status := 200;
     headers := [("CB-BEFORE", "100")];
     json := Some (PList [PScalar (SInt 1)]) |}.

(** Status 404 with body [{"message": "Not Found"}]. *)
Definition not_found : response :=
  {| status := 404;
     headers := [("Content-Type", "application/json")];
     json := Some (PDict [("message", PScalar (SStr "Not Found"))]) |}.

(** Status 404 with body [{"message": null}]. *)
Definition null_message : response :=
  {| status := 404;
     headers := [("Content-Type", "application/json")];
     json := Some (PDict [("message", PScalar SNone)]) |}.

(** A server that answers 404 to [/fail] and an empty list to any other
    url. *)
Definition fail_only (clock : string) : world :=
  {| now := clock;
     server := fun rq =>
       if String.eqb (rq_url rq) "https://api.pro.coinbase.com/fail"
       then not_found else ok_empty;
     sent := [] |}.

Definition noon : string := "1700000000.5".

(** The six bytes of [secret], which [c2VjcmV0] decodes to. *)
Definition secret_bytes : bytes := map Lib.byte_of_Z (Lib.ascii_bytes "secret").

Definition message_bytes (s : string) : bytes :=
  map Lib.byte_of_Z (Lib.ascii_bytes s).

(** The request sent for a GET of the url [u] without credentials. *)
Definition plain_get (u : string) : request :=
  {| rq_method := "get"; rq_url := u; rq_data := None;
     rq_headers := [("USER-AGENT", "Python/3.7.0 copra/0.1.0")] |}.

(** The request [alice] sends at [noon] for an authenticated GET of
    [path]. *)
Definition signed_get (path : string) : request :=
  {| rq_method := "get";
     rq_url := "https://api.pro.coinbase.com" +:+ path;
     rq_data := None;
     rq_headers :=
       [ ("USER-AGENT", "Python/3.7.0 copra/0.1.0");
         ("Content-Type", "Application/JSON");
         ("CB-ACCESS-SIGN",
          decode_ascii
            (Lib.b64encode_bytes
               (Lib.hmac_sha256_digest secret_bytes
                  (message_bytes (noon +:+ "GET" +:+ path)))));
         ("CB-ACCESS-TIMESTAMP", noon);
         ("CB-ACCESS-KEY", "k");
         ("CB-ACCESS-PASSPHRASE", "p") ] |}.

(** [Channel('ticker', ['BTC-USD'])] and [Channel('ticker', ['ETH-USD'])]. *)
Definition ticker_btc : WebSocket.Channel :=
  {| WebSocket.name := "ticker";
     WebSocket.product_ids := list_to_set ["BTC-USD"] |}.

Definition ticker_eth : WebSocket.Channel :=
  {| WebSocket.name := "ticker";
     WebSocket.product_ids := list_to_set ["ETH-USD"] |}.

Definition heartbeat_btc : WebSocket.Channel :=
  {| WebSocket.name := "heartbeat";
     WebSocket.product_ids := list_to_set ["BTC-USD"] |}.

(** [Client(loop, [Channel('ticker', ['BTC-USD']),
                   Channel('ticker', ['ETH-USD'])])]. *)
Definition two_tickers : WebSocket.Client :=
  WebSocket.Client_init (WebSocket.ManyChannels [ticker_btc; ticker_eth])
    WebSocket.FEED_URL "WebSocket Client".

(** A connection of the client holding the two ticker Channels, its
    handshake still under way. *)
Definition two_tickers_connecting : WebSocket.session :=
  {| WebSocket.factory := two_tickers;
     WebSocket.conn := WebSocket.Connecting;
     WebSocket.frames := [] |}.

(** A connection of [Client(loop, [Channel('heartbeat', 'BTC-USD')])]
    whose handshake is still under way. *)
Definition connecting : WebSocket.session :=
  {| WebSocket.factory :=
       WebSocket.Client_init (WebSocket.ManyChannels [heartbeat_btc])
         WebSocket.FEED_URL "WebSocket Client";
     WebSocket.conn := WebSocket.Connecting;
     WebSocket.frames := [] |}.

End Fixtures.

(* ===================================================================== *)
(** ** Library instances: known answers *)
(* ===================================================================== *)

Section KnownAnswers.
Import Fixtures Lib.

(** FIPS 180-4 appendix B.1: SHA-256 of [abc]. *)
Example sha256_abc :
  Lib.sha256_Z (ascii_bytes "abc") =
  [0xba; 0x78; 0x16; 0xbf; 0x8f; 0x01; 0xcf; 0xea; 0x41; 0x41; 0x40; 0xde;
   0x5d; 0xae; 0x22; 0x23; 0xb0; 0x03; 0x61; 0xa3; 0x96; 0x17; 0x7a; 0x9c;
   0xb4; 0x10; 0xff; 0x61; 0xf2; 0x00; 0x15; 0xad].
Proof. vm_compute. reflexivity. Qed.

(** RFC 4231, test case 2. *)
Example hmac_sha256_jefe :
  Lib.hmac_sha256_Z (ascii_bytes "Jefe")
    (ascii_bytes "what do ya want for nothing?") =
  [0x5b; 0xdc; 0xc1; 0x46; 0xbf; 0x60; 0x75; 0x4e; 0x6a; 0x04; 0x24; 0x26;
   0x08; 0x95; 0x75; 0xc7; 0x5a; 0x00; 0x3f; 0x08; 0x9d; 0x27; 0x39; 0x83;
   0x9d; 0xec; 0x58; 0xb9; 0x64; 0xec; 0x38; 0x43].
Proof. vm_compute. reflexivity. Qed.

(** RFC 4648, section 10. *)
Example base64_foobar :
  decode_ascii (Lib.b64encode_bytes
                  (map Lib.byte_of_Z (ascii_bytes "foobar"))) = "Zm9vYmFy"
  /\ Lib.b64decode_str "Zm9vYg==" = Some (map Lib.byte_of_Z (ascii_bytes "foob")).
Proof. split; vm_compute; reflexivity. Qed.

(** Decoding is lenient as in CPython: a line break and a character
    outside the alphabet are skipped, what follows the padding is
    ignored, a lone pad is dropped; an unfinished quad and a text that
    is not ASCII are refused. *)
Example base64_lenient :
  let decoded (s : string) := map Lib.Z_of_byte <$> Lib.b64decode_str s in
  decoded ("c2Vj" +:+ String (ascii_of_N 10) "cmV0")
    = Some (ascii_bytes "secret")
  /\ decoded "Zm9v!YmFy" = Some (ascii_bytes "foobar")
  /\ decoded "Zm9vYg==junk" = Some (ascii_bytes "foob")
  /\ decoded "Zg=x=" = Some [102; 12]%Z
  /\ decoded "abcd=" = Some [105; 183; 29]%Z
  /\ decoded "Zg=" = None
  /\ decoded "Z" = None
  /\ decoded (String (ascii_of_N 233) EmptyString) = None.
Proof. cbv zeta. repeat split; vm_compute; reflexivity. Qed.

(** A key longer than one block and a message of several blocks, with
    the value CPython computes. *)
Example hmac_sha256_long :
  decode_ascii
    (b64encode_bytes
       (hmac_sha256_digest (map byte_of_Z (seqZ 0 100))
          (map byte_of_Z (seqZ 0 200)))) =
  "080HKz4BgfeV3dPXpJ6EXl7+uIjAfFA7S/lmRf7CT28=".
Proof. vm_compute. reflexivity. Qed.

Example urlencode_limit_after :
  Lib.urlencode_pairs [("limit", SInt 100); ("after", SStr "a b&c")] =
  "limit=100&after=a+b%26c".
Proof. vm_compute. reflexivity. Qed.

Example lower_TICKER : lower "TICKER" = "ticker".
Proof. reflexivity. Qed.

Example dumps_side_buy :
  json_dumps side_buy =
  "{" +:+ dquote +:+ "side" +:+ dquote +:+ ": " +:+ dquote +:+ "buy"
  +:+ dquote +:+ "}".
Proof. reflexivity. Qed.

(** Quote, backslash, newline, DEL and e-acute inside a string. *)
Example json_string_escapes :
  json_string ("x" +:+ dquote +:+ "y\z"
               +:+ String (ascii_of_N 10)
                     (String (ascii_of_N 127)
                        (String (ascii_of_N 233) EmptyString))) =
  dquote +:+ "x\" +:+ dquote +:+ "y\\z\n\u007f\u00e9" +:+ dquote.
Proof. vm_compute. reflexivity. Qed.

Example dumps_nested :
  json_dumps (PDict [("a", PList [PScalar (SInt 1); PScalar (SBool true);
                                  PScalar SNone]);
                     ("b", PDict [("c", PScalar (SFloat "1.5"))])]) =
  "{" +:+ dquote +:+ "a" +:+ dquote +:+ ": [1, true, null], "
  +:+ dquote +:+ "b" +:+ dquote +:+ ": {" +:+ dquote +:+ "c" +:+ dquote
  +:+ ": 1.5}}".
Proof. vm_compute. reflexivity. Qed.

End KnownAnswers.

(* ===================================================================== *)
(** ** Properties of the REST client *)
(* ===================================================================== *)

Section RestProperties.
Import Rest.
Context {rt : Runtime}.

Ltac run :=
  unfold bind, ret, raise, or_raise, response_json, session_call, time_time;
  simpl.

(** What construction with [auth=True] leaves in the client. *)
Lemma Client_init_auth (u k s p : string) (self : Client) :
  Client_init u true k s p = Ok self ->
  auth self = true /\ key self = k /\ secret self = s /\ passphrase self = p
  /\ k <> EmptyString /\ s <> EmptyString /\ p <> EmptyString.
Proof.
  unfold Client_init, nonempty. simpl.
  destruct (String.eqb_spec k EmptyString) as [->|Hk]; simpl; [discriminate|].
  destruct (String.eqb_spec s EmptyString) as [->|Hs]; simpl; [discriminate|].
  destruct (String.eqb_spec p EmptyString) as [->|Hp]; simpl; [discriminate|].
  intros [= <-]. simpl. auto 10.
Qed.

Lemma get_auth_headers_ok (self : Client) (path method : string)
    (body : pyval) (ts : scalar) (w : world) (hk msg : bytes) :
  auth self = true ->
  truthy_scalar ts = true ->
  encode_ascii (auth_message (py_str ts) method path
                  (if truthy body then json_dumps body else EmptyString))
    = Some msg ->
  b64decode (secret self) = Some hk ->
  get_auth_headers self path method body ts w =
    (Ok [ ("USER-AGENT", USER_AGENT);
          ("Content-Type", "Application/JSON");
          ("CB-ACCESS-SIGN", signature_text hk msg);
          ("CB-ACCESS-TIMESTAMP", py_str ts);
          ("CB-ACCESS-KEY", key self);
          ("CB-ACCESS-PASSPHRASE", passphrase self) ], w).
Proof.
  intros Hauth Hts Hmsg Hkey.
  unfold get_auth_headers. rewrite Hauth, Hts. simpl.
  unfold bind, ret. simpl. rewrite Hmsg. simpl. rewrite Hkey. reflexivity.
Qed.

(** C1 (amended).  On a client constructed with [auth=True] and
    credentials (key, secret, passphrase), for every path, method and
    body, and every supplied timestamp that tests true (any but zero),
    when the secret decodes from base64 to [hk] and the text
    [str(timestamp) ++ method ++ path ++ body-text] encodes to the ASCII
    bytes [msg] - the body text being [json.dumps(body)] for a non-empty
    body and the empty string otherwise - [get_auth_headers] returns,
    leaving the world as it was, headers whose [CB-ACCESS-SIGN] is
    base64(HMAC-SHA256(hk, msg)) and whose [CB-ACCESS-TIMESTAMP] is
    [str(timestamp)].  For path [/orders], method [POST], body
    [{"side": "buy"}] and timestamp [1000.0] the text that is encoded is
    exactly [1000.0POST/orders{"side": "buy"}]. *)
Theorem C1_get_auth_headers_signature (u k s p : string) (self : Client)
    (path method : string) (body : pyval) (ts : scalar) (w : world)
    (hk msg : bytes) :
  Client_init u true k s p = Ok self ->
  truthy_scalar ts = true ->
  b64decode s = Some hk ->
  encode_ascii (auth_message (py_str ts) method path
                  (if truthy body then json_dumps body else EmptyString))
    = Some msg ->
  (exists h,
     get_auth_headers self path method body ts w = (Ok h, w)
     /\ dict_get "CB-ACCESS-SIGN" h
        = Some (decode_ascii (b64encode (hmac_sha256 hk msg)))
     /\ dict_get "CB-ACCESS-TIMESTAMP" h = Some (py_str ts))
  /\ auth_message (py_str (SFloat "1000.0")) "POST" "/orders"
       (if truthy Fixtures.side_buy then json_dumps Fixtures.side_buy
        else EmptyString)
     = Fixtures.orders_message.
Proof.
  intros Hinit Hts Hkey Hmsg. split; [|reflexivity].
  destruct (Client_init_auth _ _ _ _ _ Hinit) as (Hauth & _ & Hs & _).
  rewrite <- Hs in Hkey.
  eexists. split.
  - eapply get_auth_headers_ok; eassumption.
  - split; reflexivity.
Qed.

(** *** Running a request *)

(** The world after one more request went out. *)
Lemma _request_run (h : handler) (method url : string)
    (data : option string) (hdrs : dict string) (w : world) :
  method ∈ ["delete"; "get"; "post"] ->
  let rq := {| rq_method := method; rq_url := url;
               rq_data := data; rq_headers := hdrs |} in
  let w' := {| now := now w; server := server w; sent := sent w ++ [rq] |} in
  _request h method url data hdrs w =
    if (400 <=? status (server w rq))%Z
    then match h (server w rq) w' with
         | (Ok _, w'') => (Ok (server w rq), w'')
         | (Raise e, w'') => (Raise e, w'')
         end
    else (Ok (server w rq), w').
Proof.
  intros Hm rq w'. unfold _request.
  rewrite bool_decide_eq_true_2 by exact Hm. run.
  fold rq. fold w'. destruct (400 <=? status (server w rq))%Z; [|reflexivity].
  destruct (h (server w rq) w') as [[[]|e] w'']; reflexivity.
Qed.

(** [Client.handle_error] always raises, and touches nothing. *)
Lemma Client_handle_error_raises (resp : response) (w : world) :
  exists e, Client_handle_error resp w = (Raise e, w).
Proof.
  unfold Client_handle_error. run.
  destruct (json resp) as [body|]; run; [|eauto].
  destruct body as [sc|l|d]; run; eauto.
  destruct (dict_get "message" d) as [m|]; run; [|eauto].
  destruct m as [[]| |]; run; eauto.
Qed.

Lemma Client_handle_error_message (resp : response) (w : world)
    (d : list (string * pyval)) (m : string) :
  json resp = Some (PDict d) ->
  dict_get "message" d = Some (PScalar (SStr m)) ->
  Client_handle_error resp w =
    (Raise (APIRequestError
              (m +:+ " [" +:+ pretty (status resp) +:+ "]") resp), w).
Proof.
  intros Hj Hm. unfold Client_handle_error. run.
  rewrite Hj. run. rewrite Hm. reflexivity.
Qed.

(** Preparing the request headers neither fails half-way nor sends. *)
Lemma get_auth_headers_world (self : Client) (path method : string)
    (body : pyval) (ts : scalar) (w : world) :
  snd (get_auth_headers self path method body ts w) = w.
Proof.
  unfold get_auth_headers. destruct (auth self); [|reflexivity]. simpl.
  destruct (truthy_scalar ts); run.
  - destruct (encode_ascii _); run; [|reflexivity].
    destruct (b64decode _); reflexivity.
  - destruct (encode_ascii _); run; [|reflexivity].
    destruct (b64decode _); reflexivity.
Qed.

(** Every request method of [Client] prepares headers, performs one
    [_request] with its own error hook, parses the body and copies the
    headers. *)
Lemma rest_call_shape (self : Client) (call : M (dict string * pyval)) :
  rest_call self call ->
  exists (prep : M (dict string)) (method url : string) (data : option string),
    method ∈ ["delete"; "get"; "post"]
    /\ (forall w, snd (prep w) = w)
    /\ call = (req_headers <- prep ;;
               resp <- _request Client_handle_error method url data
                         req_headers ;;
               body <- response_json resp ;;
               ret (dict_of_headers (headers resp), body)).
Proof.
  intros [path params a | path params a | path data a].
  - exists (if a then get_auth_headers self path "DELETE" (PDict []) SNone
            else ret HEADERS), "delete",
           (with_query (url self +:+ path) params), None.
    split; [set_solver|]. split; [|reflexivity].
    intros w. destruct a; [apply get_auth_headers_world | reflexivity].
  - exists (if a then get_auth_headers self path "GET" (PDict []) SNone
            else ret HEADERS), "get",
           (with_query (url self +:+ path) params), None.
    split; [set_solver|]. split; [|reflexivity].
    intros w. destruct a; [apply get_auth_headers_world | reflexivity].
  - exists (if a then get_auth_headers self path "POST" data SNone
            else ret HEADERS), "post", (url self +:+ path),
           (Some (if truthy data then json_dumps data else EmptyString)).
    split; [set_solver|]. split; [|reflexivity].
    intros w. destruct a; [apply get_auth_headers_world | reflexivity].
Qed.

(** Text with nothing appended. *)
Lemma append_empty (s : string) : s +:+ EmptyString = s.
Proof.
  induction s as [|c s IH]; [reflexivity|].
  change (String c (s +:+ EmptyString) = String c s). f_equal. exact IH.
Qed.

(** A list is not itself with one more element. *)
Lemma sent_grows {A} (l : list A) (x : A) : l <> l ++ [x].
Proof.
  intros H. apply (f_equal length) in H. rewrite length_app in H.
  simpl in H. lia.
Qed.

(** What a request method returns once it has sent the request [rq]:
    the response of the server to [rq] decides. *)
Lemma rest_call_reply (self : Client) (call : M (dict string * pyval))
    (w : world) (rq : request) :
  rest_call self call ->
  sent (snd (call w)) = sent w ++ [rq] ->
  let resp := server w rq in
  let parsed := match json resp with
                | Some body => Ok (dict_of_headers (headers resp), body)
                | None => Raise JSONError
                end in
  fst (call w) =
    if (400 <=? status resp)%Z
    then match fst (Client_handle_error resp w) with
         | Ok _ => parsed
         | Raise e => Raise e
         end
    else parsed.
Proof.
  intros Hcall Hsent resp parsed. subst resp parsed.
  destruct (rest_call_shape _ _ Hcall)
    as (prep & method & u & data & Hm & Hprep & ->).
  revert Hsent. unfold bind. specialize (Hprep w).
  destruct (prep w) as [[hdrs|e] w1]; simpl in Hprep; subst w1;
    [|intros Hsent; exfalso; exact (sent_grows _ _ Hsent)].
  rewrite (_request_run _ _ _ _ _ _ Hm).
  set (rq0 := {| rq_method := method; rq_url := u; rq_data := data;
                 rq_headers := hdrs |}).
  assert (Hrq : sent w ++ [rq0] = sent w ++ [rq] -> rq0 = rq).
  { intros H. apply app_inv_head in H. congruence. }
  destruct (400 <=? status (server w rq0))%Z eqn:Hst.
  - match goal with |- context [Client_handle_error (server w rq0) ?w'] =>
      destruct (Client_handle_error_raises (server w rq0) w') as [e He];
      destruct (Client_handle_error_raises (server w rq0) w) as [e' He'];
      rewrite He
    end.
    intros Hsent. simpl in Hsent. apply Hrq in Hsent. subst rq.
    rewrite Hst, He'. simpl.
    (* the hook's verdict does not depend on the world *)
    revert He He'. unfold Client_handle_error. run.
    destruct (json (server w rq0)) as [body|]; run; [|congruence].
    destruct body as [sc|l|d]; run; try congruence.
    destruct (dict_get "message" d) as [m|]; run; [|congruence].
    destruct m as [[]| |]; run; congruence.
  - run. destruct (json (server w rq0)) eqn:Hj; simpl; intros Hsent;
      apply Hrq in Hsent; subst rq; rewrite Hst, Hj; reflexivity.
Qed.

(** C2.  An authenticated POST whose secret decodes and whose signed
    text is ASCII transmits exactly one request.  Its body is
    [json.dumps(data)] (the empty text when [data] tests false), and the
    signature in its [CB-ACCESS-SIGN] header is the one of the clock
    reading followed by [POST], the path and that very body. *)
Theorem C2_post_signature_covers_sent_body (self : Client) (path : string)
    (data : pyval) (w : world) (hk : bytes) :
  auth self = true ->
  b64decode (secret self) = Some hk ->
  is_Some (encode_ascii
             (now w +:+ "POST" +:+ path +:+
              (if truthy data then json_dumps data else EmptyString))) ->
  exists (rq : request) (body : string) (msg : bytes),
    sent (snd (Client_post self path data true w)) = sent w ++ [rq]
    /\ rq_method rq = "post"
    /\ rq_data rq = Some body
    /\ body = (if truthy data then json_dumps data else EmptyString)
    /\ encode_ascii (now w +:+ "POST" +:+ path +:+ body) = Some msg
    /\ dict_get "CB-ACCESS-SIGN" (rq_headers rq)
       = Some (decode_ascii (b64encode (hmac_sha256 hk msg))).
Proof.
  intros Hauth Hkey [msg Hmsg].
  pose (hdrs := [ ("USER-AGENT", USER_AGENT);
                  ("Content-Type", "Application/JSON");
                  ("CB-ACCESS-SIGN", signature_text hk msg);
                  ("CB-ACCESS-TIMESTAMP", now w);
                  ("CB-ACCESS-KEY", key self);
                  ("CB-ACCESS-PASSPHRASE", passphrase self) ]).
  exists {| rq_method := "post"; rq_url := url self +:+ path;
            rq_data := Some (if truthy data then json_dumps data
                             else EmptyString);
            rq_headers := hdrs |},
         (if truthy data then json_dumps data else EmptyString), msg.
  split; [|repeat split; try reflexivity; exact Hmsg].
  unfold Client_post, BaseClient_post, get_auth_headers, auth_message.
  rewrite Hauth. simpl. unfold bind at 1 2. run.
  rewrite Hmsg. run. rewrite Hkey. simpl.
  rewrite _request_run by set_solver. simpl.
  destruct (400 <=? _)%Z.
  - match goal with |- context [Client_handle_error ?r ?w'] =>
      destruct (Client_handle_error_raises r w') as [e ->] end.
    reflexivity.
  - run. destruct (json _); reflexivity.
Qed.

(** C3 (amended).  When a request method of [Client], authenticated or
    not, has sent its request and the response to it has a status of
    400 or more and a JSON object body with a [message] field, the call
    raises.  When the field holds a string the exception is
    [APIRequestError]: its text is the message followed by a space and
    the status in square brackets, and it carries the response itself;
    when the field holds anything else (null, a number, a list, an
    object) the exception is TypeError. *)
Theorem C3_error_status_raises_api_error (self : Client)
    (call : M (dict string * pyval)) (w : world) (rq : request)
    (d : list (string * pyval)) (x : pyval) :
  rest_call self call ->
  sent (snd (call w)) = sent w ++ [rq] ->
  (400 <= status (server w rq))%Z ->
  json (server w rq) = Some (PDict d) ->
  dict_get "message" d = Some x ->
  fst (call w) =
    Raise match x with
          | PScalar (SStr m) =>
              APIRequestError
                (m +:+ " [" +:+ pretty (status (server w rq)) +:+ "]")
                (server w rq)
          | _ => TypeError
          end.
Proof.
  intros Hcall Hsent Hst Hj Hm.
  rewrite (rest_call_reply _ _ _ _ Hcall Hsent).
  apply Z.leb_le in Hst. rewrite Hst.
  unfold Client_handle_error. run. rewrite Hj. run. rewrite Hm.
  destruct x as [[]| |]; reflexivity.
Qed.

(** *** Response headers as a plain dict *)

Lemma dict_get_set {V} (k n : string) (v : V) (d : dict V) :
  dict_get n (dict_set k v d) =
    if String.eqb k n then Some v else dict_get n d.
Proof.
  induction d as [|[k' v'] d IH]; simpl.
  - reflexivity.
  - destruct (String.eqb k' k) eqn:Ek; simpl.
    + apply String.eqb_eq in Ek. subst k'.
      destruct (String.eqb k n); reflexivity.
    + destruct (String.eqb k' n) eqn:En.
      * apply String.eqb_eq in En. subst k'.
        rewrite String.eqb_sym, Ek. reflexivity.
      * exact IH.
Qed.

Lemma dict_of_headers_fold (hs l : list (string * string)) (d : dict string)
    (n : string) :
  dict_get n
    (fold_left
       (fun d kv =>
          match ci_getone (fst kv) hs with
          | Some v => dict_set (fst kv) v d
          | None => d
          end) l d) =
    if bool_decide (n ∈ l.*1)
    then match ci_getone n hs with
         | Some v => Some v
         | None => dict_get n d
         end
    else dict_get n d.
Proof.
  revert d. induction l as [|[k v] l IH]; intros d.
  - reflexivity.
  - rewrite fmap_cons. cbn [fold_left fst]. rewrite IH.
    rewrite (bool_decide_ext _ _ (elem_of_cons (l.*1) n k)).
    destruct (decide (n ∈ l.*1)) as [Hin|Hnin].
    + rewrite !bool_decide_eq_true_2 by tauto.
      destruct (ci_getone n hs) as [x|] eqn:En; [reflexivity|].
      destruct (ci_getone k hs) as [y|] eqn:Ek; [|reflexivity].
      rewrite dict_get_set. destruct (String.eqb k n) eqn:E; [|reflexivity].
      apply String.eqb_eq in E. congruence.
    + rewrite (bool_decide_eq_false_2 (n ∈ l.*1)) by exact Hnin.
      destruct (decide (k = n)) as [->|Hne].
      * rewrite bool_decide_eq_true_2 by tauto.
        destruct (ci_getone n hs) as [x|]; [|reflexivity].
        rewrite dict_get_set, String.eqb_refl. reflexivity.
      * rewrite bool_decide_eq_false_2 by (intros [?|?]; congruence).
        destruct (ci_getone k hs) as [y|]; [|reflexivity].
        rewrite dict_get_set.
        destruct (String.eqb k n) eqn:E; [|reflexivity].
        apply String.eqb_eq in E. contradiction.
Qed.

(** Among names that are equal as soon as they are equal up to case,
    the lookup of the response object is the lookup by spelling. *)
Lemma ci_getone_exact (n : string) (l : list (string * string)) :
  (forall k, k ∈ l.*1 -> lower k = lower n -> k = n) ->
  ci_getone n l = dict_get n l.
Proof.
  induction l as [|[k v] l IH]; intros Hl; [reflexivity|].
  cbn [ci_getone dict_get].
  destruct (String.eqb_spec (lower k) (lower n)) as [E|E].
  - assert (Hk : k = n) by (apply Hl; [rewrite fmap_cons; left | exact E]).
    subst k. rewrite String.eqb_refl. reflexivity.
  - destruct (String.eqb_spec k n) as [->|_]; [contradiction|].
    apply IH. intros k' Hk'. apply Hl. rewrite fmap_cons. right. exact Hk'.
Qed.

Lemma dict_get_absent {V} (n : string) (l : dict V) :
  n ∉ l.*1 -> dict_get n l = None.
Proof.
  induction l as [|[k v] l IH]; intros Hn; [reflexivity|].
  rewrite fmap_cons in Hn. apply not_elem_of_cons in Hn as [Hne Hn].
  cbn [dict_get]. destruct (String.eqb_spec k n) as [->|_];
    [contradiction | exact (IH Hn)].
Qed.

(** Looking a name up in [dict(resp.headers)] finds the first value
    received under exactly that spelling. *)
Lemma dict_of_headers_get (hs : list (string * string)) (n : string) :
  case_consistent hs ->
  dict_get n (dict_of_headers hs) = dict_get n hs.
Proof.
  intros Hc. unfold dict_of_headers. rewrite dict_of_headers_fold.
  destruct (decide (n ∈ hs.*1)) as [Hin|Hnin].
  - rewrite bool_decide_eq_true_2 by exact Hin.
    rewrite ci_getone_exact by (intros k Hk; apply Hc; assumption).
    destruct (dict_get n hs); reflexivity.
  - rewrite bool_decide_eq_false_2 by exact Hnin.
    symmetry. apply dict_get_absent. exact Hnin.
Qed.

(** *** Paginated endpoints *)

Lemma check_statuses_world (l : list string) (w : world) :
  check_statuses l w = (Ok tt, w) \/ exists e, check_statuses l w = (Raise e, w).
Proof.
  induction l as [|v l IH]; simpl; [left; reflexivity|].
  destruct (negb _); [right; eexists; reflexivity | exact IH].
Qed.

(** A paginated method either raises before anything is sent, or is one
    [get] followed by the reading of the two cursor headers. *)
Lemma paginated_call_shape (self : Client) (call : M page) (w : world) :
  paginated_call self call ->
  (exists e, call w = (Raise e, w))
  \/ (exists path params a,
        call w = (r <- Client_get self path params a ;; paginate r) w).
Proof.
  intros [pid limit before after | aid limit before after
         | aid limit before after | st pid limit before after
         | oid pid limit before after].
  - unfold trades. destruct (truthy_scalar before && truthy_scalar after);
      [left; eexists; reflexivity | right; eauto].
  - unfold account_history.
    destruct (truthy_scalar before && truthy_scalar after);
      [left; eexists; reflexivity | right; eauto].
  - unfold holds. destruct (truthy_scalar before && truthy_scalar after);
      [left; eexists; reflexivity | right; eauto].
  - unfold orders. destruct (truthy_scalar before && truthy_scalar after);
      [left; eexists; reflexivity |].
    destruct (truthy_status st); [|right; unfold bind at 1; simpl; eauto].
    match goal with |- context [check_statuses ?l] =>
      destruct (check_statuses_world l w) as [H|[e H]] end.
    + right. do 3 eexists. unfold bind. rewrite H. reflexivity.
    + left. exists e. unfold bind. rewrite H. reflexivity.
  - unfold fills. destruct (truthy_scalar before && truthy_scalar after);
      [left; eexists; reflexivity |].
    destruct (negb (truthy_scalar oid) && negb (truthy_scalar pid));
      [left; eexists; reflexivity |].
    destruct (truthy_scalar oid && truthy_scalar pid);
      [left; eexists; reflexivity | right; eauto].
Qed.

(** C4 (amended).  Whenever both [before] and [after] test true (neither
    is None, zero or empty), each of the five paginated methods raises
    ValueError and the world is as before the call: no request has been
    transmitted. *)
Theorem C4_both_cursors_raise_before_sending (self : Client) (w : world)
    (before after : scalar) :
  truthy_scalar before = true ->
  truthy_scalar after = true ->
  let rejected : result page * world :=
    (Raise (ValueError "before and after cannot both be provided."), w) in
  (forall product_id limit,
     trades self product_id limit before after w = rejected)
  /\ (forall account_id limit,
        account_history self account_id limit before after w = rejected)
  /\ (forall account_id limit,
        holds self account_id limit before after w = rejected)
  /\ (forall status product_id limit,
        orders self status product_id limit before after w = rejected)
  /\ (forall order_id product_id limit,
        fills self order_id product_id limit before after w = rejected).
Proof.
  intros Hb Ha rejected. subst rejected.
  unfold trades, account_history, holds, orders, fills.
  rewrite Hb, Ha. simpl. repeat split.
Qed.

(** C5 (what the code does).  When a paginated method has sent its
    request and the response to it is a success (status below 400, JSON
    body [items]) in which no two header names differ only by case, the
    method returns the 3-tuple of [items] and of the first values
    received under the exact spellings [cb-before] and [cb-after].  A
    cursor received under any other spelling, such as [CB-BEFORE], is
    not read: the method returns None for it, as it does when there is
    no such page. *)
Theorem C5_paginated_reads_exact_spelling (self : Client) (call : M page)
    (w : world) (rq : request) (items : pyval) :
  paginated_call self call ->
  sent (snd (call w)) = sent w ++ [rq] ->
  (status (server w rq) < 400)%Z ->
  json (server w rq) = Some items ->
  case_consistent (headers (server w rq)) ->
  fst (call w) =
    Ok (items,
        dict_get "cb-before" (headers (server w rq)),
        dict_get "cb-after" (headers (server w rq)))
  /\ ("cb-before" ∉ (headers (server w rq)).*1 ->
      exists a, fst (call w) = Ok (items, None, a))
  /\ ("cb-after" ∉ (headers (server w rq)).*1 ->
      exists b, fst (call w) = Ok (items, b, None)).
Proof.
  intros Hcall Hsent Hst Hj Hc.
  assert (Hrun : fst (call w) =
    Ok (items,
        dict_get "cb-before" (headers (server w rq)),
        dict_get "cb-after" (headers (server w rq)))).
  { destruct (paginated_call_shape _ _ w Hcall)
      as [[e He] | (path & params & a & He)]; rewrite He in *;
      [exfalso; exact (sent_grows _ _ Hsent) |].
    pose proof (rest_call_reply self _ w rq (call_get self path params a))
      as Hans.
    revert Hsent Hans. unfold bind.
    destruct (Client_get self path params a w) as [[[hdrs body]|e] w1];
      simpl; intros Hsent Hans; specialize (Hans Hsent); revert Hans;
      apply Z.ltb_lt in Hst; rewrite Z.ltb_antisym in Hst;
      apply negb_true_iff in Hst; rewrite Hst, Hj.
    - intros [= -> ->]. rewrite !dict_of_headers_get by exact Hc.
      reflexivity.
    - discriminate. }
  split; [exact Hrun|]. rewrite Hrun.
  split; intros Hn; rewrite (dict_get_absent _ _ Hn); eauto.
Qed.

(** C6 (amended).  When a request method of [Client] has sent its
    request and the response to it is a success (status below 400, JSON
    body) in which no two header names differ only by case, it returns
    the body with a plain dict of the headers: looking a name up in it
    finds the first value received under that very spelling, and
    nothing when no header was received under that spelling. *)
Theorem C6_returned_headers_exact_spelling (self : Client)
    (call : M (dict string * pyval)) (w : world) (rq : request)
    (body : pyval) :
  rest_call self call ->
  sent (snd (call w)) = sent w ++ [rq] ->
  (status (server w rq) < 400)%Z ->
  json (server w rq) = Some body ->
  case_consistent (headers (server w rq)) ->
  exists hdrs,
    fst (call w) = Ok (hdrs, body)
    /\ (forall n, dict_get n hdrs = dict_get n (headers (server w rq)))
    /\ (forall n, n ∉ (headers (server w rq)).*1 -> dict_get n hdrs = None).
Proof.
  intros Hcall Hsent Hst Hj Hc.
  exists (dict_of_headers (headers (server w rq))).
  rewrite (rest_call_reply _ _ _ _ Hcall Hsent).
  apply Z.ltb_lt in Hst. rewrite Z.ltb_antisym in Hst.
  apply negb_true_iff in Hst. rewrite Hst, Hj.
  split; [reflexivity|].
  split; intros n; rewrite dict_of_headers_get by exact Hc;
    [reflexivity | apply dict_get_absent].
Qed.

End RestProperties.

(* ===================================================================== *)
(** ** Properties of the WebSocket channels and client *)
(* ===================================================================== *)

Section WebSocketProperties.
Import WebSocket.

Lemma Channel_init_ok (name : string) (ids : ids_arg) :
  lower name ∈ CHANNEL_NAMES ->
  truthy_ids ids = true ->
  Channel_init name ids =
    inr {| name := lower name;
           product_ids := list_to_set match ids with
                                      | OneId s => [s]
                                      | ManyIds l => l
                                      end |}.
Proof.
  intros Hn Hi. unfold Channel_init.
  rewrite bool_decide_eq_true_2 by exact Hn. rewrite Hi. reflexivity.
Qed.

(** C7 (amended).  For every name whose lower-case form is not one of
    heartbeat, ticker, level2, full, matches, user, and for every name
    paired with an empty product id argument (the empty string or the
    empty list), constructing the Channel raises ValueError, and the
    session in whose program this happens is left as it was: no Channel
    reaches its client's registry. *)
Theorem C7_invalid_channel_raises (name : string) (ids : ids_arg)
    (s : session) :
  lower name ∉ CHANNEL_NAMES \/ truthy_ids ids = false ->
  exists msg, new_channel name ids s = (inl (ValueError msg), s).
Proof.
  intros H. unfold new_channel, Channel_init.
  destruct (decide (lower name ∈ CHANNEL_NAMES)) as [Hin|Hnin].
  - destruct H as [H|H]; [contradiction|].
    rewrite bool_decide_eq_true_2 by exact Hin. rewrite H. simpl. eauto.
  - rewrite bool_decide_eq_false_2 by exact Hnin. simpl. eauto.
Qed.

(** Nothing this module does to a session touches its client. *)
Lemma session_step_factory (s s' : session) :
  session_step s s' -> factory s' = factory s.
Proof. intros []; reflexivity. Qed.

(** C8 (amended).  The client keeps the Channels handed to its
    constructor as given and in order in [_initial_channels] (a lone
    Channel as a one-element list), and its [channels] mapping is
    empty; both stay so however many further Channels are constructed
    and when the opening handshake completes, which runs [onOpen] and
    [on_open].  Channels of the same name are therefore never merged. *)
Theorem C8_client_stores_channels_unmerged (chans : channels_arg)
    (url nm : string) (s0 s : session) :
  factory s0 = Client_init chans url nm ->
  rtc session_step s0 s ->
  _initial_channels (factory s) = match chans with
                                  | OneChannel ch => [ch]
                                  | ManyChannels l => l
                                  end
  /\ channels (factory s) = ∅.
Proof.
  intros Hinit Hsteps.
  assert (Hf : factory s = factory s0).
  { induction Hsteps as [|x y z Hxy _ IH]; [reflexivity|].
    rewrite IH by (rewrite (session_step_factory _ _ Hxy); exact Hinit).
    apply session_step_factory. exact Hxy. }
  rewrite Hf, Hinit. split; reflexivity.
Qed.

(** C9 (what the code does).  Completing the opening handshake moves the
    connection to [Open] and transmits nothing: the frames sent on the
    connection are those sent before, and the registry is untouched. *)
Theorem C9_on_open_sends_no_frame (s : session) :
  conn (handshake_completed s) = Open
  /\ frames (handshake_completed s) = frames s
  /\ factory (handshake_completed s) = factory s
  /\ frames (handshake_completed Fixtures.connecting) = [].
Proof. repeat split. Qed.

(** C10.  For every name whose lower-case form is one of the six channel
    names and every non-empty product id argument, constructing the
    Channel succeeds and stores the lower-case form as its name; so any
    other spelling with the same lower-case form yields a Channel with
    the same name. *)
Theorem C10_channel_name_case_insensitive (name : string) (ids : ids_arg) :
  lower name ∈ CHANNEL_NAMES ->
  truthy_ids ids = true ->
  exists ch,
    Channel_init name ids = inr ch
    /\ WebSocket.name ch = lower name
    /\ (forall name' ids',
          lower name' = lower name -> truthy_ids ids' = true ->
          exists ch', Channel_init name' ids' = inr ch'
                      /\ WebSocket.name ch' = WebSocket.name ch).
Proof.
  intros Hn Hi. eexists. split; [apply Channel_init_ok; assumption|].
  split; [reflexivity|].
  intros name' ids' Hl Hi'. eexists.
  split; [apply Channel_init_ok; [rewrite Hl|]; assumption|].
  simpl. exact Hl.
Qed.

End WebSocketProperties.

(* ===================================================================== *)
(** ** The statements at concrete inputs *)
(* ===================================================================== *)

Section ConcreteRest.
Import Rest Fixtures.

(** Settles [case_consistent] for a list of names written out. *)
Ltac distinct_names :=
  let k1 := fresh "k" in
  let k2 := fresh "k" in
  let H1 := fresh "H" in
  let H2 := fresh "H" in
  let E := fresh "E" in
  intros k1 k2 H1 H2 E; simpl in H1, H2;
  rewrite ?elem_of_cons, ?elem_of_nil in H1, H2;
  repeat match goal with
         | H : _ \/ _ |- _ => destruct H
         | H : False |- _ => destruct H
         end;
  subst; first [reflexivity | vm_compute in E; discriminate E].

(** C1 as stated fails for the supplied timestamp [0.0]: the client is
    constructed with [auth=True] and credentials, its secret decodes,
    the message is ASCII, yet the timestamp header carries the clock
    reading instead of [0.0], and the signature is not the one of
    [0.0POST/orders{"side": "buy"}]. *)
Lemma C1_counterexample_zero_timestamp :
  let w := respond ok_empty noon in
  let ts := SFloat "0.0" in
  let body := json_dumps side_buy in
  Client_init (url alice) true "k" "c2VjcmV0" "p" = Ok alice
  /\ ts <> SNone
  /\ b64decode (Runtime := py) (secret alice) = Some secret_bytes
  /\ encode_ascii (auth_message (py_str ts) "POST" "/orders" body)
     = Some (message_bytes (auth_message (py_str ts) "POST" "/orders" body))
  /\ exists h,
       get_auth_headers (rt := py) alice "/orders" "POST" side_buy ts w
         = (Ok h, w)
       /\ dict_get "CB-ACCESS-TIMESTAMP" h = Some noon
       /\ dict_get "CB-ACCESS-TIMESTAMP" h <> Some (py_str ts)
       /\ dict_get "CB-ACCESS-SIGN" h
          <> Some (decode_ascii
                     (b64encode (Runtime := py)
                        (hmac_sha256 (Runtime := py) secret_bytes
                           (message_bytes
                              (auth_message (py_str ts) "POST" "/orders"
                                 body))))).
Proof.
  cbv zeta. split; [reflexivity|]. split; [discriminate|].
  split; [vm_compute; reflexivity|]. split; [vm_compute; reflexivity|].
  eexists. split; [vm_compute; reflexivity|].
  split; [reflexivity|]. split; [discriminate|].
  vm_compute. discriminate.
Qed.

Lemma C1_witness :
  let w := respond ok_empty noon in
  let ts := SFloat "1000.0" in
  Client_init (url alice) true "k" "c2VjcmV0" "p" = Ok alice
  /\ truthy_scalar ts = true
  /\ b64decode (Runtime := py) "c2VjcmV0" = Some secret_bytes
  /\ encode_ascii (auth_message (py_str ts) "POST" "/orders"
                     (if truthy side_buy then json_dumps side_buy
                      else EmptyString))
     = Some (message_bytes orders_message)
  /\ exists h,
       get_auth_headers (rt := py) alice "/orders" "POST" side_buy ts w
         = (Ok h, w)
       /\ dict_get "CB-ACCESS-SIGN" h
          = Some "Casj4Ml9rberAXxYZmrEnKWxYw3cqtkl4wv09It0mI4="
       /\ dict_get "CB-ACCESS-TIMESTAMP" h = Some "1000.0".
Proof.
  cbv zeta.
  assert (Hk : b64decode (Runtime := py) "c2VjcmV0" = Some secret_bytes)
    by (vm_compute; reflexivity).
  assert (Hm : encode_ascii (auth_message (py_str (SFloat "1000.0")) "POST"
                               "/orders"
                               (if truthy side_buy then json_dumps side_buy
                                else EmptyString))
               = Some (message_bytes orders_message))
    by (vm_compute; reflexivity).
  split; [reflexivity|]. split; [reflexivity|].
  split; [exact Hk|]. split; [exact Hm|].
  destruct (C1_get_auth_headers_signature (rt := py) (url alice) "k"
              "c2VjcmV0" "p" alice "/orders" "POST"
              side_buy (SFloat "1000.0") (respond ok_empty noon)
              secret_bytes (message_bytes orders_message)
              eq_refl eq_refl Hk Hm) as [(h & Hrun & Hsign & Hts) _].
  exists h. split; [exact Hrun|]. split; [|exact Hts].
  rewrite Hsign. vm_compute. reflexivity.
Defined.

Lemma C2_witness :
  let w := respond ok_empty noon in
  auth alice = true
  /\ b64decode (Runtime := py) (secret alice) = Some secret_bytes
  /\ is_Some (encode_ascii
                (now w +:+ "POST" +:+ "/orders" +:+
                 (if truthy side_buy then json_dumps side_buy
                  else EmptyString)))
  /\ exists (rq : request) (body : string) (msg : bytes),
       sent (snd (Client_post (rt := py) alice "/orders" side_buy true w))
         = sent w ++ [rq]
       /\ rq_method rq = "post"
       /\ rq_data rq = Some body
       /\ body = (if truthy side_buy then json_dumps side_buy
                  else EmptyString)
       /\ encode_ascii (now w +:+ "POST" +:+ "/orders" +:+ body) = Some msg
       /\ dict_get "CB-ACCESS-SIGN" (rq_headers rq)
          = Some (decode_ascii
                    (b64encode (Runtime := py)
                       (hmac_sha256 (Runtime := py) secret_bytes msg))).
Proof.
  cbv zeta.
  assert (Hk : b64decode (Runtime := py) (secret alice) = Some secret_bytes)
    by (vm_compute; reflexivity).
  assert (Hm : is_Some (encode_ascii
                (now (respond ok_empty noon) +:+ "POST" +:+ "/orders" +:+
                 (if truthy side_buy then json_dumps side_buy
                  else EmptyString))))
    by (vm_compute; eexists; reflexivity).
  split; [reflexivity|]. split; [exact Hk|]. split; [exact Hm|].
  exact (C2_post_signature_covers_sent_body (rt := py) alice "/orders"
           side_buy (respond ok_empty noon) secret_bytes eq_refl Hk Hm).
Defined.

(** The transmitted body of that request is the signed text, and the
    signature is the one Python computes for it. *)
Example post_orders_known_answer :
  sent (snd (Client_post (rt := py) alice "/orders" side_buy true
               (respond ok_empty noon))) =
  [ {| rq_method := "post";
       rq_url := "https://api.pro.coinbase.com/orders";
       rq_data := Some (json_dumps side_buy);
       rq_headers :=
         [ ("USER-AGENT", "Python/3.7.0 copra/0.1.0");
           ("Content-Type", "Application/JSON");
           ("CB-ACCESS-SIGN", "n0GeeiVqiZIl/S1kve1r8TLVNWhn8Z4eURJAu5J4O30=");
           ("CB-ACCESS-TIMESTAMP", "1700000000.5");
           ("CB-ACCESS-KEY", "k");
           ("CB-ACCESS-PASSPHRASE", "p") ] |} ].
Proof. vm_compute. reflexivity. Qed.

(** C3 as stated fails for an error body whose [message] field is not
    a string: for status 404 and body [{"message": null}] the call
    raises TypeError, not [APIRequestError]. *)
Lemma C3_counterexample_null_message :
  let w := respond null_message noon in
  let r := Client_get (rt := py) alice "/fail" None true w in
  auth alice = true
  /\ sent (snd r) = sent w ++ [signed_get "/fail"]
  /\ server w (signed_get "/fail") = null_message
  /\ (400 <= status null_message)%Z
  /\ json null_message = Some (PDict [("message", PScalar SNone)])
  /\ fst r = Raise TypeError
  /\ forall m resp, fst r <> Raise (APIRequestError m resp).
Proof.
  cbv zeta. split; [reflexivity|]. split; [vm_compute; reflexivity|].
  split; [reflexivity|]. split; [vm_compute; discriminate|].
  split; [reflexivity|].
  assert (H : fst (Client_get (rt := py) alice "/fail" None true
                     (respond null_message noon)) = Raise TypeError)
    by (vm_compute; reflexivity).
  split; [exact H|]. intros m resp. rewrite H. discriminate.
Qed.

(** The claim's example, on a server that answers 404 to one url only. *)
Lemma C3_witness :
  let w := fail_only noon in
  let call := Client_get (rt := py) alice "/fail" None true in
  let rq := signed_get "/fail" in
  rest_call (rt := py) alice call
  /\ sent (snd (call w)) = sent w ++ [rq]
  /\ (400 <= status (server w rq))%Z
  /\ json (server w rq) = Some (PDict [("message", PScalar (SStr "Not Found"))])
  /\ dict_get "message" [("message", PScalar (SStr "Not Found"))]
     = Some (PScalar (SStr "Not Found"))
  /\ fst (call w) = Raise (APIRequestError "Not Found [404]" not_found).
Proof.
  cbv zeta.
  assert (Hs : sent (snd (Client_get (rt := py) alice "/fail" None true
                            (fail_only noon)))
               = sent (fail_only noon) ++ [signed_get "/fail"])
    by (vm_compute; reflexivity).
  assert (Hst : (400 <= status (server (fail_only noon) (signed_get "/fail")))%Z)
    by (vm_compute; discriminate).
  split; [constructor|]. split; [exact Hs|]. split; [exact Hst|].
  split; [reflexivity|]. split; [reflexivity|].
  exact (C3_error_status_raises_api_error (rt := py) alice _
           (fail_only noon) (signed_get "/fail") _ _
           (call_get alice "/fail" None true) Hs Hst eq_refl eq_refl).
Defined.

(** C4 as stated fails when a cursor that is set tests false: with
    [before=0] and [after=5] no error is raised and the request goes
    out, carrying the [after] cursor alone. *)
Lemma C4_counterexample_zero_before :
  let w := respond page_after_100 noon in
  let r := trades (rt := py) anon (SStr "BTC-USD") (SInt 100)
             (SInt 0) (SInt 5) w in
  SInt 0 <> SNone
  /\ SInt 5 <> SNone
  /\ fst r = Ok (PList [PScalar (SInt 1)], None, Some "100")
  /\ sent (snd r) =
     [ {| rq_method := "get";
          rq_url := "https://api.pro.coinbase.com/products/BTC-USD/trades"
                    +:+ "?limit=100&after=5";
          rq_data := None;
          rq_headers := [("USER-AGENT", "Python/3.7.0 copra/0.1.0")] |} ].
Proof.
  cbv zeta. split; [discriminate|]. split; [discriminate|].
  split; vm_compute; reflexivity.
Qed.

Lemma C4_witness :
  let w := respond page_after_100 noon in
  let rejected : result page * world :=
    (Raise (ValueError "before and after cannot both be provided."), w) in
  truthy_scalar (SStr "7") = true
  /\ truthy_scalar (SStr "9") = true
  /\ trades (rt := py) anon (SStr "BTC-USD") (SInt 100) (SStr "7") (SStr "9") w
     = rejected
  /\ fills (rt := py) alice (SStr "o1") (SStr "") (SInt 100)
       (SStr "7") (SStr "9") w = rejected.
Proof.
  cbv zeta. split; [reflexivity|]. split; [reflexivity|].
  destruct (C4_both_cursors_raise_before_sending (rt := py) anon
              (respond page_after_100 noon) (SStr "7") (SStr "9")
              eq_refl eq_refl) as (Ht & _).
  destruct (C4_both_cursors_raise_before_sending (rt := py) alice
              (respond page_after_100 noon) (SStr "7") (SStr "9")
              eq_refl eq_refl) as (_ & _ & _ & _ & Hf).
  split; [apply Ht | apply Hf].
Defined.

(** The failing input of C5: the server spells the cursor header in
    capitals.  The response does carry a before cursor, read under any
    case by the response object, yet the method returns None for it. *)
Lemma C5_failing_input_upper_case_cursor :
  let w := respond page_upper noon in
  let r := trades (rt := py) anon (SStr "BTC-USD") (SInt 100) SNone SNone w in
  (status page_upper < 400)%Z
  /\ sent (snd r) <> sent w
  /\ ci_getone "cb-before" (headers page_upper) = Some "100"
  /\ fst r = Ok (PList [PScalar (SInt 1)], None, None).
Proof.
  cbv zeta. split; [reflexivity|]. split; [vm_compute; discriminate|].
  split; [reflexivity|]. vm_compute. reflexivity.
Qed.

(** The claim's example: [cb-after: 100] and no before cursor. *)
Lemma C5_witness :
  let w := respond page_after_100 noon in
  let call := trades (rt := py) anon (SStr "BTC-USD") (SInt 100)
                SNone SNone in
  let rq := plain_get
              ("https://api.pro.coinbase.com/products/BTC-USD/trades"
               +:+ "?limit=100") in
  paginated_call (rt := py) anon call
  /\ sent (snd (call w)) = sent w ++ [rq]
  /\ (status (server w rq) < 400)%Z
  /\ json (server w rq) = Some (PList [PScalar (SInt 1)])
  /\ case_consistent (headers (server w rq))
  /\ fst (call w) = Ok (PList [PScalar (SInt 1)], None, Some "100").
Proof.
  cbv zeta.
  assert (Hs : sent (snd (trades (rt := py) anon (SStr "BTC-USD") (SInt 100)
                            SNone SNone (respond page_after_100 noon)))
               = sent (respond page_after_100 noon)
                 ++ [plain_get
                       ("https://api.pro.coinbase.com/products/BTC-USD/trades"
                        +:+ "?limit=100")])
    by (vm_compute; reflexivity).
  assert (Hst : (status page_after_100 < 400)%Z) by reflexivity.
  assert (Hc : case_consistent (headers page_after_100)) by distinct_names.
  split; [constructor|]. split; [exact Hs|]. split; [exact Hst|].
  split; [reflexivity|]. split; [exact Hc|].
  exact (proj1 (C5_paginated_reads_exact_spelling (rt := py) anon _
                  (respond page_after_100 noon) _ _
                  (call_trades anon (SStr "BTC-USD") (SInt 100) SNone SNone)
                  Hs Hst eq_refl Hc)).
Defined.

(** C6 as stated fails when the server spells the header in capitals:
    the response answers for [cb-before] whatever the case, the
    returned dict only under [CB-BEFORE]. *)
Lemma C6_counterexample_upper_case_header :
  let w := respond page_upper noon in
  let r := Client_get (rt := py) alice "/orders" None true w in
  (status page_upper < 400)%Z
  /\ sent (snd r) <> sent w
  /\ ci_getone "cb-before" (headers page_upper) = Some "100"
  /\ exists hdrs body,
       fst r = Ok (hdrs, body)
       /\ dict_get "cb-before" hdrs = None
       /\ dict_get "CB-BEFORE" hdrs = Some "100".
Proof.
  cbv zeta. split; [reflexivity|]. split; [vm_compute; discriminate|].
  split; [reflexivity|].
  do 2 eexists. split; [vm_compute; reflexivity|].
  split; reflexivity.
Qed.

Lemma C6_witness :
  let w := respond page_after_100 noon in
  let call := Client_get (rt := py) alice "/orders" None true in
  let rq := signed_get "/orders" in
  rest_call (rt := py) alice call
  /\ sent (snd (call w)) = sent w ++ [rq]
  /\ (status (server w rq) < 400)%Z
  /\ json (server w rq) = Some (PList [PScalar (SInt 1)])
  /\ case_consistent (headers (server w rq))
  /\ exists hdrs,
       fst (call w) = Ok (hdrs, PList [PScalar (SInt 1)])
       /\ (forall n, dict_get n hdrs = dict_get n (headers page_after_100))
       /\ (forall n, n ∉ (headers page_after_100).*1 ->
                     dict_get n hdrs = None).
Proof.
  cbv zeta.
  assert (Hs : sent (snd (Client_get (rt := py) alice "/orders" None true
                            (respond page_after_100 noon)))
               = sent (respond page_after_100 noon) ++ [signed_get "/orders"])
    by (vm_compute; reflexivity).
  assert (Hst : (status page_after_100 < 400)%Z) by reflexivity.
  assert (Hc : case_consistent (headers page_after_100)) by distinct_names.
  split; [constructor|]. split; [exact Hs|]. split; [exact Hst|].
  split; [reflexivity|]. split; [exact Hc|].
  exact (C6_returned_headers_exact_spelling (rt := py) alice _
           (respond page_after_100 noon) (signed_get "/orders") _
           (call_get alice "/orders" None true) Hs Hst eq_refl Hc).
Defined.

End ConcreteRest.

Section ConcreteWebSocket.
Import WebSocket Fixtures.

(** C7 as stated fails for a name that is not in the enumeration as
    spelled but is after lower-casing: [Channel('TICKER', 'BTC-USD')]
    is constructed. *)
Lemma C7_counterexample_upper_case_name :
  ("TICKER" ∉ CHANNEL_NAMES)
  /\ new_channel "TICKER" (OneId "BTC-USD") connecting
     = (inr ticker_btc, connecting).
Proof.
  split; [|reflexivity].
  unfold CHANNEL_NAMES. rewrite !not_elem_of_cons.
  repeat split; try discriminate. apply not_elem_of_nil.
Qed.

Lemma C7_witness :
  (lower "bogus" ∉ CHANNEL_NAMES \/ truthy_ids (OneId "BTC-USD") = false)
  /\ (lower "ticker" ∉ CHANNEL_NAMES \/ truthy_ids (ManyIds []) = false)
  /\ (exists msg, new_channel "bogus" (OneId "BTC-USD") connecting
                  = (inl (ValueError msg), connecting))
  /\ (exists msg, new_channel "ticker" (ManyIds []) connecting
                  = (inl (ValueError msg), connecting)).
Proof.
  assert (H1 : lower "bogus" ∉ CHANNEL_NAMES
               \/ truthy_ids (OneId "BTC-USD") = false).
  { left. unfold CHANNEL_NAMES. rewrite !not_elem_of_cons.
    repeat split; try discriminate. apply not_elem_of_nil. }
  assert (H2 : lower "ticker" ∉ CHANNEL_NAMES
               \/ truthy_ids (ManyIds []) = false)
    by (right; reflexivity).
  split; [exact H1|]. split; [exact H2|].
  split.
  - exact (C7_invalid_channel_raises "bogus" (OneId "BTC-USD") connecting H1).
  - exact (C7_invalid_channel_raises "ticker" (ManyIds []) connecting H2).
Defined.

(** C8 as stated fails: two Channels named ticker handed to the client
    stay two entries, neither holding both product ids, and the
    [channels] mapping has no entry for ticker. *)
Lemma C8_counterexample_two_tickers :
  Channel_init "ticker" (ManyIds ["BTC-USD"]) = inr ticker_btc
  /\ Channel_init "ticker" (ManyIds ["ETH-USD"]) = inr ticker_eth
  /\ channels two_tickers !! "ticker" = None
  /\ filter (fun ch => name ch = "ticker") (_initial_channels two_tickers)
     = [ticker_btc; ticker_eth]
  /\ (forall ch, ch ∈ _initial_channels two_tickers ->
        product_ids ch <> list_to_set ["BTC-USD"; "ETH-USD"]).
Proof.
  split; [reflexivity|]. split; [reflexivity|]. split; [reflexivity|].
  split; [reflexivity|].
  intros ch Hch Heq.
  assert (Hb : "BTC-USD" ∈ product_ids ch) by (rewrite Heq; set_solver).
  assert (He : "ETH-USD" ∈ product_ids ch) by (rewrite Heq; set_solver).
  unfold two_tickers in Hch. simpl in Hch.
  rewrite !elem_of_cons in Hch.
  destruct Hch as [-> | [-> | Hnil]].
  - simpl in He. set_solver.
  - simpl in Hb. set_solver.
  - exact (not_elem_of_nil _ Hnil).
Qed.

(** The two ticker Channels are still two entries after a further
    Channel has been constructed and the handshake has completed. *)
Lemma C8_witness :
  let s := handshake_completed
             (snd (new_channel "ticker" (OneId "LTC-USD")
                     two_tickers_connecting)) in
  factory two_tickers_connecting
    = Client_init (ManyChannels [ticker_btc; ticker_eth]) FEED_URL
        "WebSocket Client"
  /\ rtc session_step two_tickers_connecting s
  /\ _initial_channels (factory s) = [ticker_btc; ticker_eth]
  /\ channels (factory s) = ∅.
Proof.
  cbv zeta.
  pose proof (rtc_l session_step _ _ _
                (step_new_channel "ticker" (OneId "LTC-USD")
                   two_tickers_connecting)
                (rtc_once _ _ (step_handshake _))) as Hsteps.
  split; [reflexivity|]. split; [exact Hsteps|].
  exact (C8_client_stores_channels_unmerged
           (ManyChannels [ticker_btc; ticker_eth]) FEED_URL
           "WebSocket Client" two_tickers_connecting _ eq_refl Hsteps).
Defined.

Lemma C10_witness :
  lower "TICKER" ∈ CHANNEL_NAMES
  /\ truthy_ids (OneId "BTC-USD") = true
  /\ exists ch,
       Channel_init "TICKER" (OneId "BTC-USD") = inr ch
       /\ name ch = "ticker"
       /\ (forall name' ids',
             lower name' = lower "TICKER" -> truthy_ids ids' = true ->
             exists ch', Channel_init name' ids' = inr ch'
                         /\ name ch' = name ch).
Proof.
  assert (H : lower "TICKER" ∈ CHANNEL_NAMES).
  { unfold CHANNEL_NAMES. simpl. rewrite !elem_of_cons. auto. }
  split; [exact H|]. split; [reflexivity|].
  exact (C10_channel_name_case_insensitive "TICKER" (OneId "BTC-USD")
           H eq_refl).
Defined.

End ConcreteWebSocket.

(* ===================================================================== *)
(** ** Properties of all the endpoint methods *)
(* ===================================================================== *)

Section EndpointProperties.
Import Rest.
Context {rt : Runtime}.

Ltac step :=
  unfold bind, ret, raise, or_raise, lift, response_json, session_call,
    time_time; simpl.

(** The headers of an authenticated request, for a decoded key and an
    encoded message. *)
Lemma get_auth_headers_default (self : Client) (path method : string)
    (body : pyval) (w : world) :
  get_auth_headers self path method body SNone w =
    if negb (auth self)
    then (Raise (ValueError
                   "client is not properly configured for authorization"), w)
    else
      match encode_ascii
              (auth_message (now w) method path
                 (if truthy body then json_dumps body else EmptyString)) with
      | None => (Raise UnicodeEncodeError, w)
      | Some msg =>
          match b64decode (secret self) with
          | None => (Raise (b64decode_error (secret self)), w)
          | Some hk =>
              (Ok [ ("USER-AGENT", USER_AGENT);
                    ("Content-Type", "Application/JSON");
                    ("CB-ACCESS-SIGN", signature_text hk msg);
                    ("CB-ACCESS-TIMESTAMP", now w);
                    ("CB-ACCESS-KEY", key self);
                    ("CB-ACCESS-PASSPHRASE", passphrase self) ], w)
          end
      end.
Proof.
  unfold get_auth_headers. destruct (auth self); [|reflexivity]. step.
  destruct (encode_ascii _); step; [|reflexivity].
  destruct (b64decode _); reflexivity.
Qed.

(** The verdict of [Client.handle_error] does not depend on the world,
    and is one of four exceptions. *)
Lemma Client_handle_error_kinds (resp : response) (w : world) :
  exists e,
    (forall w', Client_handle_error resp w' = (Raise e, w'))
    /\ (e = JSONError /\ json resp = None
        \/ (e = KeyError "message"
            /\ exists d, json resp = Some (PDict d)
                         /\ dict_get "message" d = None)
        \/ (e = TypeError
            /\ (exists v, json resp = Some v /\ forall d, v <> PDict d)
               \/ e = TypeError
                  /\ exists d x, json resp = Some (PDict d)
                                 /\ dict_get "message" d = Some x
                                 /\ forall m, x <> PScalar (SStr m))
        \/ exists d m,
             json resp = Some (PDict d)
             /\ dict_get "message" d = Some (PScalar (SStr m))
             /\ e = APIRequestError
                      (m +:+ " [" +:+ pretty (status resp) +:+ "]") resp).
Proof.
  unfold Client_handle_error. step.
  destruct (json resp) as [body|] eqn:Hj; step.
  2:{ exists JSONError. split; [reflexivity|]. left. auto. }
  destruct body as [sc|l|d]; step.
  - exists TypeError. split; [reflexivity|]. right. right. left. left.
    split; [reflexivity|]. eexists. split; [reflexivity|]. discriminate.
  - exists TypeError. split; [reflexivity|]. right. right. left. left.
    split; [reflexivity|]. eexists. split; [reflexivity|]. discriminate.
  - destruct (dict_get "message" d) as [x|] eqn:Hm; step.
    2:{ exists (KeyError "message"). split; [reflexivity|]. right. left.
        split; [reflexivity|]. eauto. }
    destruct x as [[| | | |m]|l|d']; step;
      try (exists TypeError; split; [reflexivity|]; right; right; left; right;
           split; [reflexivity|]; do 2 eexists;
           split; [reflexivity|]; split; [eassumption|]; discriminate).
    eexists. split; [reflexivity|]. right. right. right.
    exists d, m. auto.
Qed.

(** One step for the three request methods: the headers are prepared,
    one request goes out, and the response decides the result. *)
Lemma rest_call_at_run (self : Client) (a : bool) (method path u : string)
    (body : pyval) (data : option string)
    (call : M (dict string * pyval)) (w : world) :
  rest_call_at self a method path u body data call ->
  call w =
    match (if a then get_auth_headers self path method body SNone w
           else (Ok HEADERS, w)) with
    | (Raise e, _) => (Raise e, w)
    | (Ok h, _) =>
        let rq := {| rq_method := lower method; rq_url := u;
                     rq_data := data; rq_headers := h |} in
        let resp := server w rq in
        let parsed := match json resp with
                      | Some b => Ok (dict_of_headers (headers resp), b)
                      | None => Raise JSONError
                      end in
        (if (400 <=? status resp)%Z
         then match fst (Client_handle_error resp w) with
              | Ok _ => parsed
              | Raise e => Raise e
              end
         else parsed, after_send w rq)
    end.
Proof.
  intros H.
  assert (Hgen : forall (prep : M (dict string)) m,
    m ∈ ["delete"; "get"; "post"] ->
    snd (prep w) = w ->
    (req_headers <- prep ;;
     resp <- _request Client_handle_error m u data req_headers ;;
     b <- response_json resp ;;
     ret (dict_of_headers (headers resp), b)) w =
    match prep w with
    | (Raise e, _) => (Raise e, w)
    | (Ok h, _) =>
        let rq := {| rq_method := m; rq_url := u;
                     rq_data := data; rq_headers := h |} in
        let resp := server w rq in
        let parsed := match json resp with
                      | Some b => Ok (dict_of_headers (headers resp), b)
                      | None => Raise JSONError
                      end in
        (if (400 <=? status resp)%Z
         then match fst (Client_handle_error resp w) with
              | Ok _ => parsed
              | Raise e => Raise e
              end
         else parsed, after_send w rq)
    end).
  { intros prep m Hm Hw. unfold bind.
    destruct (prep w) as [[h|e] w1]; simpl in Hw; subst w1; [|reflexivity].
    rewrite (_request_run _ _ _ _ _ _ Hm). cbv zeta.
    fold (after_send w {| rq_method := m; rq_url := u; rq_data := data;
                          rq_headers := h |}).
    destruct (400 <=? status _)%Z.
    - destruct (Client_handle_error_kinds
                  (server w {| rq_method := m; rq_url := u; rq_data := data;
                               rq_headers := h |}) w) as (e & He & _).
      rewrite !He. reflexivity.
    - step. destruct (json _); reflexivity. }
  destruct H as [p params a | p params a | p d a]; destruct a.
  - apply (Hgen (get_auth_headers self p "DELETE" (PDict []) SNone) "delete");
      [set_solver | apply get_auth_headers_world].
  - apply (Hgen (ret HEADERS) "delete"); [set_solver | reflexivity].
  - apply (Hgen (get_auth_headers self p "GET" (PDict []) SNone) "get");
      [set_solver | apply get_auth_headers_world].
  - apply (Hgen (ret HEADERS) "get"); [set_solver | reflexivity].
  - apply (Hgen (get_auth_headers self p "POST" d SNone) "post");
      [set_solver | apply get_auth_headers_world].
  - apply (Hgen (ret HEADERS) "post"); [set_solver | reflexivity].
Qed.

(** *** Every endpoint is a validation followed by one request method *)

Lemma observe_bind_pure {A B} (c : M A) (k : A -> M B) (w : world) :
  (forall x w', exists y, k x w' = (Ok y, w')) ->
  observe (x <- c ;; k x) w = observe c w.
Proof.
  intros Hk. unfold observe, bind.
  destruct (c w) as [[x|e] w']; [|reflexivity].
  destruct (Hk x w') as [y ->]. reflexivity.
Qed.

Lemma place_order_data_error
    (side product_id order_type price size funds time_in_force cancel_after
     post_only stop stop_price client_oid stp : scalar) (e : exn) :
  place_order_data side product_id order_type price size funds time_in_force
    cancel_after post_only stop stop_price client_oid stp = Raise e ->
  exists m, e = ValueError m.
Proof.
  unfold place_order_data.
  cbv zeta.
  repeat match goal with
         | |- (if ?b then _ else _) = _ -> _ =>
             destruct b; try (intros [= <-]; eauto; fail)
         end;
    discriminate.
Qed.

Lemma create_report_data_error
    (report_type start_date end_date product_id account_id report_format
     email : scalar) (e : exn) :
  create_report_data report_type start_date end_date product_id account_id
    report_format email = Raise e ->
  exists m, e = ValueError m.
Proof.
  unfold create_report_data.
  cbv zeta.
  repeat match goal with
         | |- (if ?b then _ else _) = _ -> _ =>
             destruct b; try (intros [= <-]; eauto; fail)
         end;
    discriminate.
Qed.

Lemma check_statuses_cases (l : list string) (w : world) :
  check_statuses l w = (Ok tt, w)
  \/ exists m, check_statuses l w = (Raise (ValueError m), w).
Proof.
  induction l as [|v l IH]; simpl; [left; reflexivity|].
  destruct (negb _); [right; eexists; reflexivity | exact IH].
Qed.

(** The endpoints that return the body. *)
Lemma body_call_shape (self : Client) (a : bool) (c : M pyval) (w : world) :
  (a = false /\ public_call self c) \/ (a = true /\ private_call self c) ->
  (exists m, c w = (Raise (ValueError m), w))
  \/ (exists method path u body data rc,
        rest_call_at self a method path u body data rc
        /\ c w = (r <- rc ;; ret (snd r)) w).
Proof.
  assert (Hget : forall path params (k : dict string * pyval -> M pyval),
    exists method p u body data rc,
      rest_call_at self a method p u body data rc
      /\ (r <- Client_get self path params a ;; k r) w = (r <- rc ;; k r) w).
  { intros. do 5 eexists. exists (Client_get self path params a).
    split; [apply at_get | reflexivity]. }
  assert (Hdel : forall path params (k : dict string * pyval -> M pyval),
    exists method p u body data rc,
      rest_call_at self a method p u body data rc
      /\ (r <- Client_delete self path params a ;; k r) w = (r <- rc ;; k r) w).
  { intros. do 5 eexists. exists (Client_delete self path params a).
    split; [apply at_delete | reflexivity]. }
  assert (Hpost : forall path d (k : dict string * pyval -> M pyval),
    exists method p u body data rc,
      rest_call_at self a method p u body data rc
      /\ (r <- Client_post self path d a ;; k r) w = (r <- rc ;; k r) w).
  { intros. do 5 eexists. exists (Client_post self path d a).
    split; [apply at_post | reflexivity]. }
  intros [[-> H] | [-> H]]; destruct H;
    try (right; first [apply Hget | apply Hdel | apply Hpost]).
  - (* order_book *)
    unfold order_book. destruct (negb _);
      [left; eexists; reflexivity | right; apply Hget].
  - (* place_order *)
    unfold place_order, lift. unfold bind at 1.
    destruct (place_order_data _ _ _ _ _ _ _ _ _ _ _ _ _) as [d|e] eqn:E.
    + right. apply Hpost.
    + left. destruct (place_order_data_error _ _ _ _ _ _ _ _ _ _ _ _ _ _ E)
        as [m ->]. eauto.
  - (* create_report *)
    unfold create_report, lift. unfold bind at 1.
    destruct (create_report_data _ _ _ _ _ _ _) as [d|e] eqn:E.
    + right. apply Hpost.
    + left. destruct (create_report_data_error _ _ _ _ _ _ _ _ E) as [m ->].
      eauto.
Qed.

(** The paginated endpoints, with their [auth] flag. *)
Lemma page_call_shape (self : Client) (w : world) :
  let get_page (a : bool) (c : M page) :=
    (exists m, c w = (Raise (ValueError m), w))
    \/ (exists path params,
          c w = (r <- Client_get self path params a ;; paginate r) w) in
  (forall product_id limit before after,
     get_page false (trades self product_id limit before after))
  /\ (forall account_id limit before after,
        get_page true (account_history self account_id limit before after))
  /\ (forall account_id limit before after,
        get_page true (holds self account_id limit before after))
  /\ (forall status product_id limit before after,
        get_page true (orders self status product_id limit before after))
  /\ (forall order_id product_id limit before after,
        get_page true (fills self order_id product_id limit before after)).
Proof.
  cbv zeta. repeat split.
  - intros pid limit before after. unfold trades.
    destruct (truthy_scalar before && truthy_scalar after);
      [left; eexists; reflexivity | right; eauto].
  - intros aid limit before after. unfold account_history.
    destruct (truthy_scalar before && truthy_scalar after);
      [left; eexists; reflexivity | right; eauto].
  - intros aid limit before after. unfold holds.
    destruct (truthy_scalar before && truthy_scalar after);
      [left; eexists; reflexivity | right; eauto].
  - intros st pid limit before after. unfold orders.
    destruct (truthy_scalar before && truthy_scalar after);
      [left; eexists; reflexivity |].
    destruct (truthy_status st); [|right; unfold bind at 1; simpl; eauto].
    match goal with |- context [check_statuses ?l] =>
      destruct (check_statuses_cases l w) as [H|[m H]] end.
    + right. do 2 eexists. unfold bind. rewrite H. reflexivity.
    + left. exists m. unfold bind. rewrite H. reflexivity.
  - intros oid pid limit before after. unfold fills.
    destruct (truthy_scalar before && truthy_scalar after);
      [left; eexists; reflexivity |].
    destruct (negb (truthy_scalar oid) && negb (truthy_scalar pid));
      [left; eexists; reflexivity |].
    destruct (truthy_scalar oid && truthy_scalar pid);
      [left; eexists; reflexivity | right; eauto].
Qed.

Lemma endpoint_shape (self : Client) (a : bool)
    (f : world -> option exn * world) (w : world) :
  endpoint self a f ->
  (exists m, f w = (Some (ValueError m), w))
  \/ (exists method path u body data rc,
        rest_call_at self a method path u body data rc
        /\ f w = observe rc w).
Proof.
  assert (Hpage : forall (c : M page),
    (exists m, c w = (Raise (ValueError m), w))
    \/ (exists path params,
          c w = (r <- Client_get self path params a ;; paginate r) w) ->
    (exists m, observe c w = (Some (ValueError m), w))
    \/ (exists method path u body data rc,
          rest_call_at self a method path u body data rc
          /\ observe c w = observe rc w)).
  { intros c [[m H] | (path & params & H)].
    - left. exists m. unfold observe. rewrite H. reflexivity.
    - right. do 6 eexists. split; [apply (at_get self path params a)|].
      unfold observe at 1. rewrite H.
      change (observe (r <- Client_get self path params a ;; paginate r) w
              = observe (Client_get self path params a) w).
      apply observe_bind_pure. intros [h b] w'. eexists. reflexivity. }
  assert (Hbody : forall (c : M pyval),
    (a = false /\ public_call self c) \/ (a = true /\ private_call self c) ->
    (exists m, observe c w = (Some (ValueError m), w))
    \/ (exists method path u body data rc,
          rest_call_at self a method path u body data rc
          /\ observe c w = observe rc w)).
  { intros c Hc.
    destruct (body_call_shape self a c w Hc)
      as [[m H] | (method & path & u & body & data & rc & Hrc & H)].
    - left. exists m. unfold observe. rewrite H. reflexivity.
    - right. exists method, path, u, body, data, rc. split; [exact Hrc|].
      unfold observe at 1. rewrite H.
      change (observe (r <- rc ;; ret (snd r)) w = observe rc w).
      apply observe_bind_pure. intros x w'. eexists. reflexivity. }
  destruct (page_call_shape self w) as (Ht & Hah & Hh & Ho & Hf).
  intros H. destruct H.
  - right. eauto 10.
  - apply Hbody. auto.
  - apply Hbody. auto.
  - apply Hpage, Ht.
  - apply Hpage, Hah.
  - apply Hpage, Hh.
  - apply Hpage, Ho.
  - apply Hpage, Hf.
Qed.

(** *** What one call does *)

(** What a response is turned into. *)
Lemma reply_outcome (resp : response) (w : world) :
  let parsed := match json resp with
                | Some b => Ok (dict_of_headers (headers resp), b)
                | None => Raise JSONError
                end in
  let r := if (400 <=? status resp)%Z
           then match fst (Client_handle_error resp w) with
                | Ok _ => parsed
                | Raise e => Raise e
                end
           else parsed in
  (exists v, r = Ok v /\ (status resp < 400)%Z /\ is_Some (json resp))
  \/ (exists e, r = Raise e /\ raised_from_response resp e
                 /\ ((400 <= status resp)%Z ->
                     forall w', Client_handle_error resp w' = (Raise e, w'))).
Proof.
  cbv zeta. destruct (400 <=? status resp)%Z eqn:Hst.
  - apply Z.leb_le in Hst. right.
    destruct (Client_handle_error_kinds resp w) as (e & He & Hk).
    rewrite (He w). simpl. exists e. split; [reflexivity|].
    split; [|intros _; exact He].
    destruct Hk
      as [[-> Hj] | [[-> _] | [[[-> _] | [-> _]] | (d & m & _ & _ & ->)]]];
      simpl; auto.
  - apply Z.leb_gt in Hst. destruct (json resp) as [b|] eqn:Hj.
    + left. eexists. split; [reflexivity|]. split; [exact Hst|]. eauto.
    + right. exists JSONError. split; [reflexivity|].
      split; [exact Hj | intros; lia].
Qed.

(** A request method either fails while the headers are prepared, the
    world untouched, or sends one request with the prepared headers and
    turns the response into its result. *)
Lemma rest_observe (self : Client) (a : bool) (method path u : string)
    (body : pyval) (data : option string)
    (rc : M (dict string * pyval)) (w : world) :
  rest_call_at self a method path u body data rc ->
  (exists e,
     observe rc w = (Some e, w) /\ raised_before_sending e /\ a = true
     /\ (auth self = false -> exists m, e = ValueError m))
  \/ (exists h,
        let rq := {| rq_method := lower method; rq_url := u;
                     rq_data := data; rq_headers := h |} in
        let resp := server w rq in
        snd (observe rc w) = after_send w rq
        /\ (a = false -> h = HEADERS)
        /\ (a = true ->
            auth self = true
            /\ exists hk msg,
                 b64decode (secret self) = Some hk
                 /\ encode_ascii
                      (auth_message (now w) method path
                         (if truthy body then json_dumps body
                          else EmptyString)) = Some msg
                 /\ h = [ ("USER-AGENT", USER_AGENT);
                          ("Content-Type", "Application/JSON");
                          ("CB-ACCESS-SIGN",
                           decode_ascii (b64encode (hmac_sha256 hk msg)));
                          ("CB-ACCESS-TIMESTAMP", now w);
                          ("CB-ACCESS-KEY", key self);
                          ("CB-ACCESS-PASSPHRASE", passphrase self) ])
        /\ (fst (observe rc w) = None
            /\ (status resp < 400)%Z /\ is_Some (json resp)
            \/ exists e, fst (observe rc w) = Some e
                         /\ raised_from_response resp e
                         /\ ((400 <= status resp)%Z ->
                             forall w', Client_handle_error resp w'
                                        = (Raise e, w')))).
Proof.
  intros Hrc. unfold observe. rewrite (rest_call_at_run _ _ _ _ _ _ _ _ w Hrc).
  destruct a.
  - rewrite get_auth_headers_default.
    destruct (auth self) eqn:Hauth; cbn [negb].
    + destruct (encode_ascii _) as [msg|] eqn:Hmsg.
      * destruct (b64decode (secret self)) as [hk|] eqn:Hkey.
        -- right. eexists. cbv zeta.
           match goal with |- context [server w ?rq] =>
             destruct (reply_outcome (server w rq) w)
               as [(v & Hr & Hst & Hj) | (e & Hr & He & Hh)]
           end; cbv zeta in Hr; rewrite Hr; cbv beta iota; cbn [fst snd].
           ++ split; [reflexivity|]. split; [discriminate|].
              split; [|left; auto]. intros _. split; [reflexivity|].
              exists hk, msg. auto.
           ++ split; [reflexivity|]. split; [discriminate|].
              split; [|right; eauto]. intros _. split; [reflexivity|].
              exists hk, msg. auto.
        -- left. exists (b64decode_error (secret self)).
           split; [reflexivity|]. split; [|split; [reflexivity|]].
           ++ unfold b64decode_error.
              destruct (encode_ascii (secret self)); exact I.
           ++ intros Hno. congruence.
      * left. exists UnicodeEncodeError. repeat split; auto; discriminate.
    + left. eexists. split; [reflexivity|]. split; [exact I|].
      split; [reflexivity|]. eauto.
  - right. exists HEADERS. cbv zeta.
    match goal with |- context [server w ?rq] =>
      destruct (reply_outcome (server w rq) w)
        as [(v & Hr & Hst & Hj) | (e & Hr & He & Hh)]
    end; cbv zeta in Hr; rewrite Hr; cbv beta iota; cbn [fst snd].
    + split; [reflexivity|]. split; [reflexivity|].
      split; [discriminate|]. left. auto.
    + split; [reflexivity|]. split; [reflexivity|].
      split; [discriminate|]. right. eauto.
Qed.

(** The same for every endpoint, where validation may also reject the
    arguments. *)
Lemma endpoint_run (self : Client) (a : bool)
    (f : world -> option exn * world) (w : world) :
  endpoint self a f ->
  (exists e,
     f w = (Some e, w) /\ raised_before_sending e
     /\ (a = false \/ auth self = false -> exists m, e = ValueError m))
  \/ (exists method path u body data h,
        let rq := {| rq_method := lower method; rq_url := u;
                     rq_data := data; rq_headers := h |} in
        let resp := server w rq in
        snd (f w) = after_send w rq
        /\ (a = false -> h = HEADERS)
        /\ (a = true ->
            auth self = true
            /\ exists hk msg,
                 b64decode (secret self) = Some hk
                 /\ encode_ascii
                      (auth_message (now w) method path
                         (if truthy body then json_dumps body
                          else EmptyString)) = Some msg
                 /\ h = [ ("USER-AGENT", USER_AGENT);
                          ("Content-Type", "Application/JSON");
                          ("CB-ACCESS-SIGN",
                           decode_ascii (b64encode (hmac_sha256 hk msg)));
                          ("CB-ACCESS-TIMESTAMP", now w);
                          ("CB-ACCESS-KEY", key self);
                          ("CB-ACCESS-PASSPHRASE", passphrase self) ])
        /\ (fst (f w) = None
            /\ (status resp < 400)%Z /\ is_Some (json resp)
            \/ exists e, fst (f w) = Some e /\ raised_from_response resp e
                         /\ ((400 <= status resp)%Z ->
                             forall w', Client_handle_error resp w'
                                        = (Raise e, w')))).
Proof.
  intros Hep.
  destruct (endpoint_shape self a f w Hep)
    as [[m Hm] | (method & path & u & body & data & rc & Hrc & Hf)].
  - left. exists (ValueError m). split; [exact Hm|].
    split; [exact I|]. eauto.
  - rewrite Hf.
    destruct (rest_observe self a method path u body data rc w Hrc)
      as [(e & He & Hpre & Ha & Hv) | (h & Hrun)].
    + left. exists e. split; [exact He|]. split; [exact Hpre|].
      intros [Hfalse | Hno]; [congruence | auto].
    + right. exists method, path, u, body, data, h. exact Hrun.
Qed.

Lemma after_send_fresh (w : world) (rq : request) : after_send w rq <> w.
Proof.
  intros H. apply (f_equal (fun x => length (sent x))) in H.
  simpl in H. rewrite length_app in H. simpl in H. lia.
Qed.

Lemma after_send_sent (w w' : world) (rq : request) :
  w' = after_send w rq -> sent w' <> sent w.
Proof.
  intros -> H. apply (f_equal length) in H.
  simpl in H. rewrite length_app in H. simpl in H. lia.
Qed.

(** X1.  Whatever a method of the client does, it transmits at most one
    request: no request is repeated, and the clock and the server are
    left alone. *)
Theorem X1_at_most_one_request (self : Client) (a : bool)
    (f : world -> option exn * world) (w : world) :
  endpoint self a f ->
  now (snd (f w)) = now w
  /\ server (snd (f w)) = server w
  /\ (sent (snd (f w)) = sent w
      \/ exists rq, sent (snd (f w)) = sent w ++ [rq]).
Proof.
  intros Hep. destruct (endpoint_run self a f w Hep)
    as [(e & -> & _) | (method & path & u & body & data & h & -> & _)].
  - auto.
  - simpl. eauto.
Qed.

(** X2.  ValueError, UnicodeEncodeError and binascii.Error are raised
    only before anything is sent: a call that ends in one of them has
    left the world as it was. *)
Theorem X2_usage_errors_before_sending (self : Client) (a : bool)
    (f : world -> option exn * world) (w w' : world) (e : exn) :
  endpoint self a f ->
  f w = (Some e, w') ->
  (exists m, e = ValueError m) \/ e = UnicodeEncodeError \/ e = BinasciiError ->
  w' = w.
Proof.
  intros Hep Hf Hkind. destruct (endpoint_run self a f w Hep)
    as [(e0 & He0 & _)
       | (method & path & u & body & data & h & _ & _ & _ & Hout)].
  - congruence.
  - rewrite Hf in Hout. simpl in Hout.
    destruct Hout as [[Hn _] | (e1 & [= <-] & Hr & _)]; [discriminate|].
    destruct Hkind as [[m ->] | [-> | ->]]; contradiction.
Qed.

(** X3.  Once the request [rq] of a method has gone out, a response to
    it with a status of 400 or more never yields a result: the call
    raises, and the body of that response decides what.  The exception
    is [APIRequestError], with the message followed by the status in
    square brackets and carrying the response, when the body is a JSON
    object whose [message] is a string; KeyError for [message] when the
    object has no such field; the decoding error when the body is not
    JSON; and TypeError in every other case (a body that is not an
    object, a [message] that is not a string). *)
Theorem X3_error_status_always_raises (self : Client) (a : bool)
    (f : world -> option exn * world) (w : world) (rq : request) :
  endpoint self a f ->
  sent (snd (f w)) = sent w ++ [rq] ->
  (400 <= status (server w rq))%Z ->
  fst (f w) =
    Some match json (server w rq) with
         | None => JSONError
         | Some (PDict d) =>
             match dict_get "message" d with
             | None => KeyError "message"
             | Some (PScalar (SStr m)) =>
                 APIRequestError
                   (m +:+ " [" +:+ pretty (status (server w rq)) +:+ "]")
                   (server w rq)
             | Some _ => TypeError
             end
         | Some _ => TypeError
         end.
Proof.
  intros Hep Hsent Hst. destruct (endpoint_run self a f w Hep)
    as [(e0 & He0 & _)
       | (method & path & u & body & data & h & Hw & _ & _ & Hout)].
  - rewrite He0 in Hsent. exfalso. exact (sent_grows _ _ Hsent).
  - rewrite Hw in Hsent. simpl in Hsent. apply app_inv_head in Hsent.
    injection Hsent as Hrq. rewrite Hrq in Hout.
    destruct Hout as [(_ & Hlt & _) | (e & He & _ & Hh)]; [lia|].
    rewrite He. f_equal. specialize (Hh Hst w). revert Hh.
    unfold Client_handle_error. step.
    destruct (json (server w rq)) as [[sc|l|d]|]; step; try congruence.
    destruct (dict_get "message" d) as [[[]| |]|]; step; congruence.
Qed.

(** X4.  On a client that was not set up for authentication, every
    method that asks for it raises ValueError and sends nothing. *)
Theorem X4_private_endpoints_need_auth (self : Client)
    (f : world -> option exn * world) (w : world) :
  endpoint self true f ->
  auth self = false ->
  exists m, f w = (Some (ValueError m), w).
Proof.
  intros Hep Hauth. destruct (endpoint_run self true f w Hep)
    as [(e & He & _ & Hv)
       | (method & path & u & body & data & h & _ & _ & Ht & _)].
  - destruct Hv as [m ->]; [auto|]. eauto.
  - destruct (Ht eq_refl) as [Ht' _]. congruence.
Qed.

(** X5.  A method that does not ask for authentication never sends the
    credentials, on any client: unless its arguments are rejected with
    ValueError, it sends exactly one request whose only header is the
    user agent. *)
Theorem X5_public_endpoints_send_no_credentials (self : Client)
    (f : world -> option exn * world) (w : world) :
  endpoint self false f ->
  (exists m, f w = (Some (ValueError m), w))
  \/ (exists rq, snd (f w) = after_send w rq
                 /\ rq_headers rq = [("USER-AGENT", USER_AGENT)]).
Proof.
  intros Hep. destruct (endpoint_run self false f w Hep)
    as [(e & He & _ & Hv)
       | (method & path & u & body & data & h & Hw & Hh & _)].
  - left. destruct Hv as [m ->]; [auto|]. eauto.
  - right. eexists. split; [exact Hw|]. simpl. apply Hh. reflexivity.
Qed.

(** X6.  A method that asks for authentication either fails before
    sending (the client has no credentials, the secret is not base64 or
    the message is not ASCII), or sends exactly one request, which
    carries the client's key and passphrase, the clock reading as its
    timestamp, the JSON content type and a signature. *)
Theorem X6_private_endpoints_send_credentials (self : Client)
    (f : world -> option exn * world) (w : world) :
  endpoint self true f ->
  (exists e, f w = (Some e, w)
             /\ ((exists m, e = ValueError m)
                 \/ e = UnicodeEncodeError \/ e = BinasciiError))
  \/ (exists rq,
        snd (f w) = after_send w rq
        /\ auth self = true
        /\ dict_get "CB-ACCESS-KEY" (rq_headers rq) = Some (key self)
        /\ dict_get "CB-ACCESS-PASSPHRASE" (rq_headers rq)
           = Some (passphrase self)
        /\ dict_get "CB-ACCESS-TIMESTAMP" (rq_headers rq) = Some (now w)
        /\ dict_get "Content-Type" (rq_headers rq) = Some "Application/JSON"
        /\ dict_get "USER-AGENT" (rq_headers rq) = Some USER_AGENT
        /\ is_Some (dict_get "CB-ACCESS-SIGN" (rq_headers rq))).
Proof.
  intros Hep. destruct (endpoint_run self true f w Hep)
    as [(e & He & Hpre & _)
       | (method & path & u & body & data & h & Hw & _ & Ht & _)].
  - left. exists e. split; [exact He|].
    destruct e; simpl in Hpre; try contradiction; eauto.
  - right. destruct (Ht eq_refl) as (Hauth & hk & msg & _ & _ & ->).
    eexists. split; [exact Hw|]. simpl. repeat split; eauto.
Qed.

(** *** The request that goes out *)

Lemma observe_raise {A} (c : M A) (w w' : world) (e : exn) :
  observe c w = (Some e, w') -> c w = (Raise e, w').
Proof.
  unfold observe. destruct (c w) as [[x|e'] w'']; intros [= <- <-]; reflexivity.
Qed.

Lemma observe_snd {A} (c : M A) (w : world) : snd (observe c w) = snd (c w).
Proof. unfold observe. destruct (c w) as [[x|e] w']; reflexivity. Qed.

(** A continuation that only computes changes neither the failure nor
    the world. *)
Lemma bind_pure {A B} (c : M A) (g : A -> M B) (w : world) :
  (forall x w', exists y, g x w' = (Ok y, w')) ->
  snd ((r <- c ;; g r) w) = snd (c w)
  /\ (forall e, c w = (Raise e, w) -> (r <- c ;; g r) w = (Raise e, w)).
Proof.
  intros Hg. unfold bind. split.
  - destruct (c w) as [[x|e] w']; [|reflexivity].
    destruct (Hg x w') as [y ->]. reflexivity.
  - intros e ->. reflexivity.
Qed.

(** The request of a request method, when one goes out. *)
Lemma rest_sent (self : Client) (a : bool) (method path u : string)
    (body : pyval) (data : option string)
    (rc : M (dict string * pyval)) (w : world) :
  rest_call_at self a method path u body data rc ->
  (exists e, rc w = (Raise e, w))
  \/ (exists h,
        snd (rc w) = after_send w {| rq_method := lower method; rq_url := u;
                                     rq_data := data; rq_headers := h |}
        /\ (a = false -> h = HEADERS)
        /\ (a = true ->
            exists hk msg,
              b64decode (secret self) = Some hk
              /\ encode_ascii
                   (auth_message (now w) method path
                      (if truthy body then json_dumps body
                       else EmptyString)) = Some msg
              /\ dict_get "CB-ACCESS-SIGN" h
                 = Some (decode_ascii (b64encode (hmac_sha256 hk msg))))).
Proof.
  intros Hrc. destruct (rest_observe self a method path u body data rc w Hrc)
    as [(e & He & _) | (h & Hw & Hf & Ht & _)].
  - left. exists e. apply observe_raise. exact He.
  - right. exists h. rewrite observe_snd in Hw. split; [exact Hw|].
    split; [exact Hf|]. intros Ha.
    destruct (Ht Ha) as (_ & hk & msg & Hk & Hm & ->).
    exists hk, msg. auto.
Qed.

(** X7.  The signature of an authenticated GET or DELETE is the one of
    the clock reading followed by the method and the path, and of
    nothing more: the query string that [params] adds to the requested
    url is not part of the signed text, and no body is sent. *)
Theorem X7_signature_leaves_query_out (self : Client) (path : string)
    (params : option (dict scalar)) (w : world) :
  let signed (method : string) (r : result (dict string * pyval) * world) :=
    (exists e, r = (Raise e, w))
    \/ (exists rq hk msg,
          snd r = after_send w rq
          /\ rq_method rq = lower method
          /\ rq_url rq = with_query (url self +:+ path) params
          /\ rq_data rq = None
          /\ b64decode (secret self) = Some hk
          /\ encode_ascii (now w +:+ method +:+ path) = Some msg
          /\ dict_get "CB-ACCESS-SIGN" (rq_headers rq)
             = Some (decode_ascii (b64encode (hmac_sha256 hk msg)))) in
  signed "GET" (Client_get self path params true w)
  /\ signed "DELETE" (Client_delete self path params true w).
Proof.
  cbv zeta. split.
  - destruct (rest_sent self true _ _ _ _ _ _ w (at_get self path params true))
      as [He | (h & Hw & _ & Ht)]; [left; exact He | right].
    destruct (Ht eq_refl) as (hk & msg & Hk & Hm & Hs).
    unfold auth_message in Hm. cbn [truthy] in Hm.
    rewrite append_empty in Hm.
    eexists. exists hk, msg. split; [exact Hw|]. simpl. auto 10.
  - destruct (rest_sent self true _ _ _ _ _ _ w
                (at_delete self path params true))
      as [He | (h & Hw & _ & Ht)]; [left; exact He | right].
    destruct (Ht eq_refl) as (hk & msg & Hk & Hm & Hs).
    unfold auth_message in Hm. cbn [truthy] in Hm.
    rewrite append_empty in Hm.
    eexists. exists hk, msg. split; [exact Hw|]. simpl. auto 10.
Qed.

(** X8.  With the default error hook of [BaseClient], which does
    nothing, the three request methods return the response whatever its
    status, after sending exactly one request: a status of 400 or more
    raises nothing. *)
Theorem X8_base_client_returns_error_responses (url : string)
    (params : option (dict scalar)) (data : pyval) (hdrs : dict string)
    (w : world) :
  let sends (method u : string) (d : option string)
            (r : result response * world) :=
    let rq := {| rq_method := method; rq_url := u;
                 rq_data := d; rq_headers := hdrs |} in
    r = (Ok (server w rq), after_send w rq) in
  sends "get" (with_query url params) None
    (BaseClient_get BaseClient_handle_error url params hdrs w)
  /\ sends "delete" (with_query url params) None
       (BaseClient_delete BaseClient_handle_error url params hdrs w)
  /\ sends "post" url
       (Some (if truthy data then json_dumps data else EmptyString))
       (BaseClient_post BaseClient_handle_error url data hdrs w).
Proof.
  cbv zeta. unfold BaseClient_get, BaseClient_delete, BaseClient_post.
  rewrite !_request_run by set_solver. unfold BaseClient_handle_error, ret.
  repeat split; destruct (400 <=? _)%Z; reflexivity.
Qed.

(** X9.  A POST whose [data] tests false (None, the empty dict) carries
    the empty string as its body, not a JSON text. *)
Theorem X9_post_without_data_sends_empty_body (self : Client)
    (path : string) (data : pyval) (a : bool) (w : world) :
  truthy data = false ->
  (exists e, Client_post self path data a w = (Raise e, w))
  \/ (exists rq,
        snd (Client_post self path data a w) = after_send w rq
        /\ rq_method rq = "post"
        /\ rq_url rq = url self +:+ path
        /\ rq_data rq = Some EmptyString).
Proof.
  intros Hd.
  destruct (rest_sent self a _ _ _ _ _ _ w (at_post self path data a))
    as [He | (h & Hw & _)]; [left; exact He | right].
  eexists. split; [exact Hw|]. simpl. rewrite Hd. auto.
Qed.

(** X10.  [cancel_all] sends a DELETE to [/orders]: with a product id
    that tests true the url ends in the query string made of
    [product_id] alone, without one the url has no query string at
    all. *)
Theorem X10_cancel_all_query (self : Client) (product_id : scalar)
    (w : world) :
  (exists e, cancel_all self product_id w = (Raise e, w))
  \/ (exists rq,
        snd (cancel_all self product_id w) = after_send w rq
        /\ rq_method rq = "delete"
        /\ rq_data rq = None
        /\ rq_url rq =
           if truthy_scalar product_id
           then (url self +:+ "/orders") +:+ "?"
                +:+ urlencode [("product_id", product_id)]
           else url self +:+ "/orders").
Proof.
  unfold cancel_all.
  match goal with |- context [Client_delete self ?p ?ps true] =>
    destruct (bind_pure (Client_delete self p ps true)
                (fun r => ret (snd r)) w) as [Hs Hr];
      [intros; eexists; reflexivity|];
    destruct (rest_sent self true _ _ _ _ _ _ w (at_delete self p ps true))
      as [[e He] | (h & Hw & _)]
  end.
  - left. exists e. apply Hr. exact He.
  - right. eexists. rewrite Hs. split; [exact Hw|].
    split; [reflexivity|]. split; [reflexivity|]. simpl.
    destruct (truthy_scalar product_id); reflexivity.
Qed.

(** The request of a paginated method built on [get]. *)
Lemma page_sent (self : Client) (path : string) (ps : dict scalar)
    (p : string * scalar) (a : bool) (w : world) :
  let c := r <- Client_get self path (Some (p :: ps)) a ;; paginate r in
  (exists e, c w = (Raise e, w))
  \/ (exists rq,
        snd (c w) = after_send w rq
        /\ rq_method rq = "get"
        /\ rq_data rq = None
        /\ rq_url rq = (url self +:+ path) +:+ "?" +:+ urlencode (p :: ps)).
Proof.
  cbv zeta.
  destruct (bind_pure (Client_get self path (Some (p :: ps)) a) paginate w)
    as [Hs Hr]; [intros [h b] w'; eexists; reflexivity|].
  destruct (rest_sent self a _ _ _ _ _ _ w
              (at_get self path (Some (p :: ps)) a))
    as [[e He] | (h & Hw & _)].
  - left. exists e. apply Hr. exact He.
  - right. eexists. rewrite Hs. split; [exact Hw|]. simpl. auto.
Qed.

(** X11.  [trades], [account_history] and [holds] send a GET whose query
    string is made of [limit] followed by the one cursor that tests
    true, under its own name and as given; a cursor that tests false is
    left out. *)
Theorem X11_cursor_is_sent_as_given (self : Client)
    (id limit before after : scalar) (w : world) :
  let cursor := if truthy_scalar before then [("before", before)]
                else if truthy_scalar after then [("after", after)]
                else [] in
  let page_of (path : string) (r : result page * world) :=
    (exists e, r = (Raise e, w))
    \/ (exists rq,
          snd r = after_send w rq
          /\ rq_method rq = "get"
          /\ rq_data rq = None
          /\ rq_url rq = (url self +:+ path) +:+ "?"
                         +:+ urlencode (("limit", limit) :: cursor)) in
  page_of ("/products/" +:+ py_str id +:+ "/trades")
    (trades self id limit before after w)
  /\ page_of ("/accounts/" +:+ py_str id +:+ "/ledger")
       (account_history self id limit before after w)
  /\ page_of ("/accounts/" +:+ py_str id +:+ "/holds")
       (holds self id limit before after w).
Proof.
  cbv zeta. unfold trades, account_history, holds.
  destruct (truthy_scalar before), (truthy_scalar after); simpl;
    repeat split;
    first [ left; eexists; reflexivity | apply page_sent ].
Qed.

Lemma cimd_update_status (m : dict scalar) (l : list string) :
  cimd_remove "status" m = m ->
  cimd_update m (map (fun v => ("status", SStr v)) l)
  = m ++ map (fun v => ("status", SStr v)) l.
Proof.
  intros Hm. unfold cimd_update. f_equal.
  induction l as [|v l IH]; simpl; [reflexivity|].
  rewrite Hm. exact IH.
Qed.

Lemma cimd_remove_app (k : string) (m1 m2 : dict scalar) :
  cimd_remove k (m1 ++ m2) = cimd_remove k m1 ++ cimd_remove k m2.
Proof. unfold cimd_remove. apply filter_app. Qed.

Lemma cimd_remove_status (l : list string) :
  cimd_remove "product_id" (map (fun v => ("status", SStr v)) l)
  = map (fun v => ("status", SStr v)) l.
Proof.
  induction l as [|v l IH]; [reflexivity|].
  cbn [map]. unfold cimd_remove, dict in *.
  rewrite filter_cons_True by exact I. f_equal. exact IH.
Qed.

Lemma orders_run (self : Client) (status : status_arg)
    (product_id limit before after : scalar) (w : world) :
  let cursor := if truthy_scalar before then [("before", before)]
                else if truthy_scalar after then [("after", after)]
                else [] in
  let statuses := if truthy_status status
                  then map (fun v => ("status", SStr v))
                         match status with
                         | StStr s => [s]
                         | StList l => l
                         | StNone => []
                         end
                  else [] in
  (exists e, orders self status product_id limit before after w = (Raise e, w))
  \/ orders self status product_id limit before after w
     = (r <- Client_get self "/orders"
               (Some (("limit", limit) :: cursor ++ statuses
                      ++ (if truthy_scalar product_id
                          then [("product_id", product_id)] else [])))
               true ;;
        paginate r) w.
Proof.
  cbv zeta. unfold orders.
  destruct (truthy_scalar before) eqn:Hb, (truthy_scalar after) eqn:Ha;
    cbn [andb]; try (left; eexists; reflexivity).
  all: destruct (truthy_status status) eqn:Hst.
  all: try (right; unfold bind at 1; cbn [ret];
            destruct (truthy_scalar product_id); reflexivity).
  all: match goal with |- context [check_statuses ?l] =>
         destruct (check_statuses_cases l w) as [H | [m H]]
       end;
       [ right | left; exists (ValueError m); unfold bind; rewrite H;
                 reflexivity ].
  all: unfold bind at 1 2; rewrite H; cbn beta iota; cbn [ret].
  all: rewrite cimd_update_status by reflexivity.
  all: destruct (truthy_scalar product_id); [|rewrite app_nil_r; reflexivity].
  all: unfold cimd_setitem, cimd_update; cbn [fold_left fst];
    rewrite cimd_remove_app, cimd_remove_status;
    rewrite <- app_assoc; reflexivity.
Qed.

(** X12.  [orders] sends a GET to [/orders] whose query string holds, in
    this order, [limit], the cursor that tests true, one [status] entry
    for each status given (a single string counts as one) and the
    product id when it tests true; [fills] sends [limit], the cursor and
    the one of [order_id] and [product_id] that tests true. *)
Theorem X12_orders_and_fills_query (self : Client) (status : status_arg)
    (order_id product_id limit before after : scalar) (w : world) :
  let cursor := if truthy_scalar before then [("before", before)]
                else if truthy_scalar after then [("after", after)]
                else [] in
  let statuses := if truthy_status status
                  then map (fun v => ("status", SStr v))
                         match status with
                         | StStr s => [s]
                         | StList l => l
                         | StNone => []
                         end
                  else [] in
  let page_of (path : string) (query : dict scalar)
              (r : result page * world) :=
    (exists e, r = (Raise e, w))
    \/ (exists rq,
          snd r = after_send w rq
          /\ rq_method rq = "get"
          /\ rq_data rq = None
          /\ rq_url rq = (url self +:+ path) +:+ "?" +:+ urlencode query) in
  page_of "/orders"
    (("limit", limit) :: cursor ++ statuses
     ++ (if truthy_scalar product_id then [("product_id", product_id)]
         else []))
    (orders self status product_id limit before after w)
  /\ page_of "/fills"
       (("limit", limit) :: cursor
        ++ (if truthy_scalar order_id then [("order_id", order_id)] else [])
        ++ (if truthy_scalar product_id then [("product_id", product_id)]
            else []))
       (fills self order_id product_id limit before after w).
Proof.
  cbv zeta. split.
  - destruct (orders_run self status product_id limit before after w)
      as [He | ->]; [left; exact He|]. apply page_sent.
  - unfold fills.
    destruct (truthy_scalar before), (truthy_scalar after),
      (truthy_scalar order_id), (truthy_scalar product_id); simpl;
      first [ left; eexists; reflexivity | apply page_sent ].
Qed.

(** X13.  [order_book] with an integer level: for 1, 2 and 3 it sends,
    without credentials, a GET whose query string is the level; for any
    other integer it raises ValueError and sends nothing. *)
Theorem X13_order_book_level (self : Client) (product_id : scalar) (z : Z)
    (w : world) :
  if bool_decide (z ∈ [1; 2; 3])
  then exists rq,
         snd (order_book self product_id (SInt z) w) = after_send w rq
         /\ rq_method rq = "get"
         /\ rq_url rq = (url self +:+ "/products/" +:+ py_str product_id
                         +:+ "/book")
                        +:+ "?" +:+ urlencode [("level", SInt z)]
         /\ rq_headers rq = [("USER-AGENT", USER_AGENT)]
  else order_book self product_id (SInt z) w
       = (Raise (ValueError "level must be 1, 2, or 3"), w).
Proof.
  unfold order_book, scalar_in_ints.
  destruct (bool_decide (z ∈ [1; 2; 3])); cbn [negb]; [|reflexivity].
  match goal with |- context [Client_get self ?p ?ps false] =>
    destruct (bind_pure (Client_get self p ps false)
                (fun r => ret (snd r)) w) as [Hs _];
      [intros; eexists; reflexivity|];
    destruct (rest_observe self false _ _ _ _ _ _ w (at_get self p ps false))
      as [(e & _ & _ & Ha & _) | (h & Hw & Hh & _)]
  end; [discriminate|].
  eexists. rewrite Hs. rewrite observe_snd in Hw. split; [exact Hw|]. simpl.
  rewrite (Hh eq_refl). auto.
Qed.

(** X14.  Each endpoint that hands the response body on as received
    (the public and the private ones listed by [public_call] and
    [private_call]; the paginated methods and [historic_rates] are not
    among them) returns, once its request [rq] has gone out and the
    response to it has a status below 400, exactly the JSON body of
    that response; when that body is not JSON it raises the decoding
    error. *)
Theorem X14_endpoint_returns_the_body (self : Client) (c : M pyval)
    (w : world) (rq : request) :
  public_call self c \/ private_call self c ->
  sent (snd (c w)) = sent w ++ [rq] ->
  (status (server w rq) < 400)%Z ->
  fst (c w) = match json (server w rq) with
              | Some body => Ok body
              | None => Raise JSONError
              end.
Proof.
  intros Hc Hsent Hst.
  assert (Hc' : exists a, (a = false /\ public_call self c)
                          \/ (a = true /\ private_call self c))
    by (destruct Hc; eauto).
  destruct Hc' as [a Hc'].
  destruct (body_call_shape self a c w Hc')
    as [[m H] | (method & path & u & body & data & rc & Hrc & H)].
  - rewrite H in Hsent. exfalso. exact (sent_grows _ _ Hsent).
  - rewrite H in *. revert Hsent. unfold bind.
    rewrite (rest_call_at_run _ _ _ _ _ _ _ _ w Hrc).
    destruct (if a then _ else _) as [[h|e] w1];
      [|intros Hsent; exfalso; exact (sent_grows _ _ Hsent)].
    cbv zeta.
    match goal with |- context [server w ?r] => set (rq0 := r) end.
    assert (Hrq : sent (after_send w rq0) = sent w ++ [rq] -> rq0 = rq).
    { intros E. simpl in E. apply app_inv_head in E. congruence. }
    destruct (400 <=? status (server w rq0))%Z eqn:Hge.
    + destruct (Client_handle_error_kinds (server w rq0) w) as (e & He & _).
      rewrite (He w). cbn [fst snd]. intros Hsent.
      apply Hrq in Hsent. subst rq. apply Z.leb_le in Hge. lia.
    + destruct (json (server w rq0)) eqn:Hj; cbn [fst snd ret];
        intros Hsent; apply Hrq in Hsent; subst rq; rewrite Hj; reflexivity.
Qed.

(** *** Validation of orders and reports *)

(** A request method on a client that can authenticate never raises
    ValueError. *)
Lemma rest_no_value_error (self : Client) (a : bool) (method path u : string)
    (body : pyval) (data : option string)
    (rc : M (dict string * pyval)) (w : world) (m : string) :
  rest_call_at self a method path u body data rc ->
  auth self = true ->
  is_Some (encode_ascii (secret self)) ->
  fst (rc w) <> Raise (ValueError m).
Proof.
  intros Hrc Hauth [sec Hsec]. rewrite (rest_call_at_run _ _ _ _ _ _ _ _ w Hrc).
  assert (Hreply : forall h,
    fst (let rq := {| rq_method := lower method; rq_url := u;
                      rq_data := data; rq_headers := h |} in
         let resp := server w rq in
         let parsed := match json resp with
                       | Some b => Ok (dict_of_headers (headers resp), b)
                       | None => Raise JSONError
                       end in
         (if (400 <=? status resp)%Z
          then match fst (Client_handle_error resp w) with
               | Ok _ => parsed
               | Raise e => Raise e
               end
          else parsed, after_send w rq)) <> Raise (ValueError m)).
  { intros h. cbv zeta. cbn [fst].
    match goal with |- context [server w ?rq] =>
      destruct (reply_outcome (server w rq) w)
        as [(v & Hr & _) | (e & Hr & He & _)]
    end; cbv zeta in Hr; rewrite Hr; [discriminate|].
    intros [= ->]. exact He. }
  destruct a.
  - rewrite get_auth_headers_default, Hauth. cbn [negb].
    destruct (encode_ascii (auth_message _ _ _ _)); [|discriminate].
    destruct (b64decode _); [apply Hreply |].
    unfold b64decode_error. rewrite Hsec. discriminate.
  - apply Hreply.
Qed.

Lemma place_order_data_valid
    (side product_id order_type price size funds time_in_force cancel_after
     post_only stop stop_price client_oid stp : scalar) :
  match place_order_data side product_id order_type price size funds
          time_in_force cancel_after post_only stop stop_price client_oid
          stp with
  | Ok _ => true
  | Raise _ => false
  end
  = scalar_in side ["buy"; "sell"]
    && scalar_in order_type ["limit"; "market"]
    && implb (truthy_scalar stop)
         (scalar_in stop ["loss"; "entry"] && truthy_scalar stop_price)
    && scalar_in stp ["dc"; "co"; "cn"; "cb"]
    && (if scalar_is order_type "limit"
        then truthy_scalar price && truthy_scalar size
             && scalar_in time_in_force ["GTC"; "GTT"; "IOC"; "FOK"]
             && implb (truthy_scalar cancel_after)
                  (scalar_is time_in_force "GTT"
                   && scalar_in cancel_after ["min"; "hour"; "day"])
        else xorb (truthy_scalar funds) (truthy_scalar size)).
Proof.
  unfold place_order_data. cbv zeta.
  destruct (scalar_in side ["buy"; "sell"]); cbn; [|reflexivity].
  destruct (scalar_in order_type ["limit"; "market"]); cbn; [|reflexivity].
  destruct (truthy_scalar stop); cbn.
  - destruct (scalar_in stop ["loss"; "entry"]); cbn; [|reflexivity].
    destruct (truthy_scalar stop_price); cbn; [|reflexivity].
    destruct (scalar_in stp ["dc"; "co"; "cn"; "cb"]); cbn; [|reflexivity].
    destruct (scalar_is order_type "limit"); cbn.
    + destruct (truthy_scalar price); cbn; [|reflexivity].
      destruct (truthy_scalar size); cbn; [|reflexivity].
      destruct (scalar_in time_in_force ["GTC"; "GTT"; "IOC"; "FOK"]); cbn;
        [|reflexivity].
      destruct (truthy_scalar cancel_after); cbn; [|reflexivity].
      destruct (scalar_is time_in_force "GTT"); cbn; [|reflexivity].
      destruct (scalar_in cancel_after ["min"; "hour"; "day"]); reflexivity.
    + destruct (truthy_scalar funds), (truthy_scalar size); reflexivity.
  - destruct (scalar_in stp ["dc"; "co"; "cn"; "cb"]); cbn; [|reflexivity].
    destruct (scalar_is order_type "limit"); cbn.
    + destruct (truthy_scalar price); cbn; [|reflexivity].
      destruct (truthy_scalar size); cbn; [|reflexivity].
      destruct (scalar_in time_in_force ["GTC"; "GTT"; "IOC"; "FOK"]); cbn;
        [|reflexivity].
      destruct (truthy_scalar cancel_after); cbn; [|reflexivity].
      destruct (scalar_is time_in_force "GTT"); cbn; [|reflexivity].
      destruct (scalar_in cancel_after ["min"; "hour"; "day"]); reflexivity.
    + destruct (truthy_scalar funds), (truthy_scalar size); reflexivity.
Qed.

(** X15.  On a client that can authenticate and whose secret is ASCII
    text, [place_order] raises ValueError, sending nothing, exactly
    when its arguments break one of its rules: the side is buy or sell; the type is limit or market; a
    stop is loss or entry and comes with a stop price; stp is dc, co, cn
    or cb; a limit order has a price, a size and a time in force among
    GTC, GTT, IOC and FOK, and [cancel_after], if set, is min, hour or
    day and goes with GTT; a market order has exactly one of funds and
    size.  ValueError is the class itself: signing may still fail with
    one of its subclasses, UnicodeEncodeError or binascii.Error; with a
    secret that is not ASCII, decoding it raises ValueError itself. *)
Theorem X15_place_order_rules (self : Client)
    (side product_id order_type price size funds time_in_force cancel_after
     post_only stop stop_price client_oid stp : scalar) (w : world) :
  auth self = true ->
  is_Some (encode_ascii (secret self)) ->
  let r := place_order self side product_id order_type price size funds
             time_in_force cancel_after post_only stop stop_price client_oid
             stp w in
  if scalar_in side ["buy"; "sell"]
     && scalar_in order_type ["limit"; "market"]
     && implb (truthy_scalar stop)
          (scalar_in stop ["loss"; "entry"] && truthy_scalar stop_price)
     && scalar_in stp ["dc"; "co"; "cn"; "cb"]
     && (if scalar_is order_type "limit"
         then truthy_scalar price && truthy_scalar size
              && scalar_in time_in_force ["GTC"; "GTT"; "IOC"; "FOK"]
              && implb (truthy_scalar cancel_after)
                   (scalar_is time_in_force "GTT"
                    && scalar_in cancel_after ["min"; "hour"; "day"])
         else xorb (truthy_scalar funds) (truthy_scalar size))
  then forall m, fst r <> Raise (ValueError m)
  else exists m, r = (Raise (ValueError m), w).
Proof.
  intros Hauth Hsec. cbv zeta.
  rewrite <- (place_order_data_valid side product_id order_type price size
                funds time_in_force cancel_after post_only stop stop_price
                client_oid stp).
  unfold place_order, lift. unfold bind at 1.
  destruct (place_order_data _ _ _ _ _ _ _ _ _ _ _ _ _) as [d|e] eqn:E.
  - intros m.
    destruct (bind_pure (Client_post self "/orders" (PDict d) true)
                (fun r => ret (snd r)) w) as [_ _];
      [intros; eexists; reflexivity|].
    pose proof (rest_no_value_error self true _ _ _ _ _ _ w m
                  (at_post self "/orders" (PDict d) true) Hauth Hsec)
      as Hno.
    unfold bind, ret.
    destruct (Client_post self "/orders" (PDict d) true w) as [[x|e] w'];
      simpl in *; congruence.
  - destruct (place_order_data_error _ _ _ _ _ _ _ _ _ _ _ _ _ _ E) as [m ->].
    eauto.
Qed.

Lemma create_report_data_valid
    (report_type start_date end_date product_id account_id report_format
     email : scalar) :
  match create_report_data report_type start_date end_date product_id
          account_id report_format email with
  | Ok _ => true
  | Raise _ => false
  end
  = scalar_in report_type ["account"; "fills"]
    && implb (scalar_is report_type "fills") (truthy_scalar product_id)
    && implb (scalar_is report_type "account") (truthy_scalar account_id)
    && scalar_in report_format ["csv"; "pdf"].
Proof.
  unfold create_report_data. cbv zeta.
  destruct (scalar_in report_type ["account"; "fills"]); cbn; [|reflexivity].
  destruct (scalar_is report_type "fills"), (truthy_scalar product_id); cbn;
    try reflexivity.
  all: destruct (scalar_is report_type "account"), (truthy_scalar account_id);
    cbn; try reflexivity.
  all: destruct (scalar_in report_format ["csv"; "pdf"]); reflexivity.
Qed.

(** X16.  On a client that can authenticate and whose secret is ASCII
    text, [create_report] raises ValueError, sending nothing, exactly
    when the report type is neither
    account nor fills, or a fills report has no product id, or an
    account report has no account id, or the format is neither csv nor
    pdf.  ValueError is the class itself, as for [place_order]. *)
Theorem X16_create_report_rules (self : Client)
    (report_type start_date end_date product_id account_id report_format
     email : scalar) (w : world) :
  auth self = true ->
  is_Some (encode_ascii (secret self)) ->
  let r := create_report self report_type start_date end_date product_id
             account_id report_format email w in
  if scalar_in report_type ["account"; "fills"]
     && implb (scalar_is report_type "fills") (truthy_scalar product_id)
     && implb (scalar_is report_type "account") (truthy_scalar account_id)
     && scalar_in report_format ["csv"; "pdf"]
  then forall m, fst r <> Raise (ValueError m)
  else exists m, r = (Raise (ValueError m), w).
Proof.
  intros Hauth Hsec. cbv zeta.
  rewrite <- (create_report_data_valid report_type start_date end_date
                product_id account_id report_format email).
  unfold create_report, lift. unfold bind at 1.
  destruct (create_report_data _ _ _ _ _ _ _) as [d|e] eqn:E.
  - intros m.
    pose proof (rest_no_value_error self true _ _ _ _ _ _ w m
                  (at_post self "/reports" (PDict d) true) Hauth Hsec)
      as Hno.
    unfold bind, ret.
    destruct (Client_post self "/reports" (PDict d) true w) as [[x|e] w'];
      simpl in *; congruence.
  - destruct (create_report_data_error _ _ _ _ _ _ _ _ E) as [m ->]. eauto.
Qed.

End EndpointProperties.

(* ===================================================================== *)
(** ** Properties of Channel.as_dict *)
(* ===================================================================== *)

Section ChannelProperties.
Import WebSocket.

(** The order in which a set is iterated: some arrangement of its
    elements. *)
Variable set_order : gset string -> list string.
Hypothesis set_order_perm : forall X, set_order X ≡ₚ elements X.

Lemma lower_char_idempotent (c : ascii) :
  lower_char (lower_char c) = lower_char c.
Proof.
  destruct c as [[] [] [] [] [] [] [] []]; vm_compute; reflexivity.
Qed.

Lemma lower_idempotent (s : string) : lower (lower s) = lower s.
Proof.
  induction s as [|c s IH]; simpl; [reflexivity|].
  rewrite lower_char_idempotent, IH. reflexivity.
Qed.

(** What a constructed Channel holds. *)
Lemma Channel_init_inv (name : string) (ids : ids_arg) (ch : Channel) :
  Channel_init name ids = inr ch ->
  lower name ∈ CHANNEL_NAMES
  /\ truthy_ids ids = true
  /\ ch = {| WebSocket.name := lower name;
             product_ids := list_to_set match ids with
                                        | OneId s => [s]
                                        | ManyIds l => l
                                        end |}.
Proof.
  unfold Channel_init.
  destruct (decide (lower name ∈ CHANNEL_NAMES)) as [Hin|Hnin].
  - rewrite bool_decide_eq_true_2 by exact Hin. cbn [negb].
    destruct (truthy_ids ids); cbn [negb]; [|discriminate].
    intros [= <-]. auto.
  - rewrite bool_decide_eq_false_2 by exact Hnin. discriminate.
Qed.

Lemma set_order_elem (X : gset string) (x : string) :
  x ∈ set_order X <-> x ∈ X.
Proof. rewrite (set_order_perm X). apply elem_of_elements. Qed.

Lemma set_order_to_set (X : gset string) : list_to_set (set_order X) = X.
Proof.
  apply set_eq. intros x. rewrite elem_of_list_to_set. apply set_order_elem.
Qed.

(** X17.  Feeding the two entries of [as_dict] back to the constructor
    gives the Channel again, whatever the order in which the set of
    product ids is listed. *)
Theorem X17_as_dict_round_trip (name : string) (ids : ids_arg) (ch : Channel) :
  Channel_init name ids = inr ch ->
  exists l,
    as_dict set_order ch
    = PDict [ ("name", PScalar (SStr (WebSocket.name ch)));
              ("product_ids", PList (map (fun s => PScalar (SStr s)) l)) ]
    /\ Channel_init (WebSocket.name ch) (ManyIds l) = inr ch.
Proof.
  intros Hch. destruct (Channel_init_inv name ids ch Hch) as (Hn & Hi & ->).
  eexists. split; [reflexivity|]. cbn [WebSocket.name product_ids].
  rewrite Channel_init_ok.
  - rewrite lower_idempotent, set_order_to_set. reflexivity.
  - rewrite lower_idempotent. exact Hn.
  - destruct (set_order _) as [|x l] eqn:Hl; [|reflexivity]. exfalso.
    assert (Hx : exists x, x ∈ match ids with OneId s => [s] | ManyIds l => l end).
    { destruct ids as [s|[|y l0]]; simpl in Hi; try discriminate;
        eexists; apply list_elem_of_here. }
    destruct Hx as [x Hx].
    assert (Hin : x ∈ set_order (list_to_set
              match ids with OneId s => [s] | ManyIds l => l end)).
    { apply set_order_elem. apply elem_of_list_to_set. exact Hx. }
    rewrite Hl in Hin. exact (not_elem_of_nil _ Hin).
Qed.

(** X18.  [as_dict] lists every product id the Channel was built from
    exactly once: duplicates given to the constructor are gone, nothing
    else is added. *)
Theorem X18_as_dict_lists_each_id_once (name : string) (ids : ids_arg)
    (ch : Channel) :
  Channel_init name ids = inr ch ->
  exists l,
    as_dict set_order ch
    = PDict [ ("name", PScalar (SStr (lower name)));
              ("product_ids", PList (map (fun s => PScalar (SStr s)) l)) ]
    /\ NoDup l
    /\ forall x, x ∈ l <-> x ∈ match ids with
                               | OneId s => [s]
                               | ManyIds l0 => l0
                               end.
Proof.
  intros Hch. destruct (Channel_init_inv name ids ch Hch) as (Hn & Hi & ->).
  eexists. split; [reflexivity|]. cbn [product_ids]. split.
  - rewrite (set_order_perm _). apply NoDup_elements.
  - intros x. rewrite set_order_elem. apply elem_of_list_to_set.
Qed.

End ChannelProperties.

(* ===================================================================== *)
(** ** The endpoint properties at concrete inputs *)
(* ===================================================================== *)

Section ConcreteEndpoints.
Import Rest Fixtures.

Lemma X1_witness :
  let f := observe (accounts (rt := py) alice) in
  let w := respond ok_empty noon in
  endpoint (rt := py) alice true f
  /\ now (snd (f w)) = now w
  /\ server (snd (f w)) = server w
  /\ (sent (snd (f w)) = sent w
      \/ exists rq, sent (snd (f w)) = sent w ++ [rq]).
Proof.
  cbv zeta.
  pose proof (ep_private (rt := py) alice _ (prv_accounts alice)) as Hep.
  split; [exact Hep|].
  exact (X1_at_most_one_request (rt := py) alice true _
           (respond ok_empty noon) Hep).
Defined.

Lemma X2_witness :
  let f := observe (accounts (rt := py) anon) in
  let w := respond ok_empty noon in
  let e := ValueError "client is not properly configured for authorization" in
  endpoint (rt := py) anon true f
  /\ f w = (Some e, w)
  /\ ((exists m, e = ValueError m)
      \/ e = UnicodeEncodeError \/ e = BinasciiError)
  /\ w = w.
Proof.
  cbv zeta.
  pose proof (ep_private (rt := py) anon _ (prv_accounts anon)) as Hep.
  assert (Hf : observe (accounts (rt := py) anon) (respond ok_empty noon)
               = (Some (ValueError
                    "client is not properly configured for authorization"),
                  respond ok_empty noon)) by reflexivity.
  assert (Hk : (exists m,
                  ValueError
                    "client is not properly configured for authorization"
                  = ValueError m)
               \/ ValueError
                    "client is not properly configured for authorization"
                  = UnicodeEncodeError
               \/ ValueError
                    "client is not properly configured for authorization"
                  = BinasciiError) by (left; eexists; reflexivity).
  split; [exact Hep|]. split; [exact Hf|]. split; [exact Hk|].
  exact (X2_usage_errors_before_sending (rt := py) anon true _ _ _ _
           Hep Hf Hk).
Defined.

Lemma X3_witness :
  let f := observe (ticker (rt := py) anon (SStr "BTC-USD")) in
  let w := respond not_found noon in
  let rq := plain_get
              "https://api.pro.coinbase.com/products/BTC-USD/ticker" in
  endpoint (rt := py) anon false f
  /\ sent (snd (f w)) = sent w ++ [rq]
  /\ (400 <= status (server w rq))%Z
  /\ fst (f w) = Some (APIRequestError "Not Found [404]" not_found).
Proof.
  cbv zeta.
  pose proof (ep_public (rt := py) anon _ (pub_ticker anon (SStr "BTC-USD")))
    as Hep.
  assert (Hs : sent (snd (observe (ticker (rt := py) anon (SStr "BTC-USD"))
                            (respond not_found noon)))
               = sent (respond not_found noon)
                 ++ [plain_get
                       "https://api.pro.coinbase.com/products/BTC-USD/ticker"])
    by (vm_compute; reflexivity).
  assert (Hst : (400 <= status not_found)%Z) by (vm_compute; discriminate).
  split; [exact Hep|]. split; [exact Hs|]. split; [exact Hst|].
  exact (X3_error_status_always_raises (rt := py) anon false _
           (respond not_found noon) _ Hep Hs Hst).
Defined.

Lemma X4_witness :
  let f := observe (accounts (rt := py) anon) in
  endpoint (rt := py) anon true f
  /\ auth anon = false
  /\ exists m, f (respond ok_empty noon)
               = (Some (ValueError m), respond ok_empty noon).
Proof.
  cbv zeta.
  pose proof (ep_private (rt := py) anon _ (prv_accounts anon)) as Hep.
  split; [exact Hep|]. split; [reflexivity|].
  exact (X4_private_endpoints_need_auth (rt := py) anon _
           (respond ok_empty noon) Hep eq_refl).
Defined.

Lemma X5_witness :
  let f := observe (products (rt := py) alice) in
  let w := respond ok_empty noon in
  endpoint (rt := py) alice false f
  /\ ((exists m, f w = (Some (ValueError m), w))
      \/ (exists rq, snd (f w) = after_send w rq
                     /\ rq_headers rq
                        = [("USER-AGENT", USER_AGENT (Runtime := py))])).
Proof.
  cbv zeta.
  pose proof (ep_public (rt := py) alice _ (pub_products alice)) as Hep.
  split; [exact Hep|].
  exact (X5_public_endpoints_send_no_credentials (rt := py) alice _
           (respond ok_empty noon) Hep).
Defined.

Lemma X6_witness :
  let f := observe (accounts (rt := py) alice) in
  let w := respond ok_empty noon in
  endpoint (rt := py) alice true f
  /\ ((exists e, f w = (Some e, w)
                 /\ ((exists m, e = ValueError m)
                     \/ e = UnicodeEncodeError \/ e = BinasciiError))
      \/ (exists rq,
            snd (f w) = after_send w rq
            /\ auth alice = true
            /\ dict_get "CB-ACCESS-KEY" (rq_headers rq) = Some (key alice)
            /\ dict_get "CB-ACCESS-PASSPHRASE" (rq_headers rq)
               = Some (passphrase alice)
            /\ dict_get "CB-ACCESS-TIMESTAMP" (rq_headers rq) = Some (now w)
            /\ dict_get "Content-Type" (rq_headers rq)
               = Some "Application/JSON"
            /\ dict_get "USER-AGENT" (rq_headers rq)
               = Some (USER_AGENT (Runtime := py))
            /\ is_Some (dict_get "CB-ACCESS-SIGN" (rq_headers rq)))).
Proof.
  cbv zeta.
  pose proof (ep_private (rt := py) alice _ (prv_accounts alice)) as Hep.
  split; [exact Hep|].
  exact (X6_private_endpoints_send_credentials (rt := py) alice _
           (respond ok_empty noon) Hep).
Defined.

(** [orders(status=['open', 'pending'], product_id='BTC-USD')] on the
    authenticated client: the url carries the query, the signature is
    the one of [1700000000.5GET/orders]. *)
Example orders_request_known_answer :
  sent (snd (orders (rt := py) alice (StList ["open"; "pending"])
               (SStr "BTC-USD") (SInt 100) SNone SNone
               (respond ok_empty noon))) =
  [ {| rq_method := "get";
       rq_url := "https://api.pro.coinbase.com/orders"
                 +:+ "?limit=100&status=open&status=pending"
                 +:+ "&product_id=BTC-USD";
       rq_data := None;
       rq_headers :=
         [ ("USER-AGENT", "Python/3.7.0 copra/0.1.0");
           ("Content-Type", "Application/JSON");
           ("CB-ACCESS-SIGN",
            decode_ascii
              (Lib.b64encode_bytes
                 (Lib.hmac_sha256_digest secret_bytes
                    (message_bytes "1700000000.5GET/orders"))));
           ("CB-ACCESS-TIMESTAMP", "1700000000.5");
           ("CB-ACCESS-KEY", "k");
           ("CB-ACCESS-PASSPHRASE", "p") ] |} ].
Proof. vm_compute. reflexivity. Qed.

Lemma X9_witness :
  let w := respond ok_empty noon in
  truthy (PDict []) = false
  /\ ((exists e, Client_post (rt := py) alice "/orders" (PDict []) true w
                 = (Raise e, w))
      \/ (exists rq,
            snd (Client_post (rt := py) alice "/orders" (PDict []) true w)
              = after_send w rq
            /\ rq_method rq = "post"
            /\ rq_url rq = url alice +:+ "/orders"
            /\ rq_data rq = Some EmptyString)).
Proof.
  cbv zeta. split; [reflexivity|].
  exact (X9_post_without_data_sends_empty_body (rt := py) alice "/orders"
           (PDict []) true (respond ok_empty noon) eq_refl).
Defined.

Lemma X14_witness :
  let c := products (rt := py) anon in
  let w := respond ok_empty noon in
  let rq := plain_get "https://api.pro.coinbase.com/products" in
  (public_call (rt := py) anon c \/ private_call (rt := py) anon c)
  /\ sent (snd (c w)) = sent w ++ [rq]
  /\ (status (server w rq) < 400)%Z
  /\ fst (c w) = Ok (PList []).
Proof.
  cbv zeta.
  pose proof (or_introl (pub_products (rt := py) anon)
              : public_call (rt := py) anon (products (rt := py) anon)
                \/ private_call (rt := py) anon (products (rt := py) anon))
    as Hc.
  assert (Hs : sent (snd (products (rt := py) anon (respond ok_empty noon)))
               = sent (respond ok_empty noon)
                 ++ [plain_get "https://api.pro.coinbase.com/products"])
    by (vm_compute; reflexivity).
  assert (Hst : (status ok_empty < 400)%Z) by reflexivity.
  split; [exact Hc|]. split; [exact Hs|]. split; [exact Hst|].
  exact (X14_endpoint_returns_the_body (rt := py) anon _
           (respond ok_empty noon) _ Hc Hs Hst).
Defined.

(** A limit order with price and size passes; a market order with both
    funds and size is rejected. *)
Lemma X15_witness :
  let w := respond ok_empty noon in
  auth alice = true
  /\ is_Some (encode_ascii (secret alice))
  /\ (forall m,
        fst (place_order (rt := py) alice (SStr "buy") (SStr "BTC-USD")
               (SStr "limit") (SStr "100.00") (SStr "0.5") SNone (SStr "GTC")
               SNone (SBool true) SNone SNone SNone (SStr "dc") w)
        <> Raise (ValueError m))
  /\ (exists m,
        place_order (rt := py) alice (SStr "sell") (SStr "BTC-USD")
          (SStr "market") SNone (SStr "0.5") (SStr "50") (SStr "GTC")
          SNone (SBool true) SNone SNone SNone (SStr "dc") w
        = (Raise (ValueError m), w)).
Proof.
  cbv zeta.
  assert (Hsec : is_Some (encode_ascii (secret alice)))
    by (eexists; reflexivity).
  split; [reflexivity|]. split; [exact Hsec|]. split.
  - exact (X15_place_order_rules (rt := py) alice (SStr "buy")
             (SStr "BTC-USD") (SStr "limit") (SStr "100.00") (SStr "0.5")
             SNone (SStr "GTC") SNone (SBool true) SNone SNone SNone
             (SStr "dc") (respond ok_empty noon) eq_refl Hsec).
  - exact (X15_place_order_rules (rt := py) alice (SStr "sell")
             (SStr "BTC-USD") (SStr "market") SNone (SStr "0.5") (SStr "50")
             (SStr "GTC") SNone (SBool true) SNone SNone SNone (SStr "dc")
             (respond ok_empty noon) eq_refl Hsec).
Defined.

(** A fills report with a product id passes; one without is rejected. *)
Lemma X16_witness :
  let w := respond ok_empty noon in
  auth alice = true
  /\ is_Some (encode_ascii (secret alice))
  /\ (forall m,
        fst (create_report (rt := py) alice (SStr "fills")
               (SStr "2019-01-01") (SStr "2019-02-01") (SStr "BTC-USD")
               (SStr "") (SStr "pdf") (SStr "") w)
        <> Raise (ValueError m))
  /\ (exists m,
        create_report (rt := py) alice (SStr "fills")
          (SStr "2019-01-01") (SStr "2019-02-01") (SStr "")
          (SStr "") (SStr "pdf") (SStr "") w
        = (Raise (ValueError m), w)).
Proof.
  cbv zeta.
  assert (Hsec : is_Some (encode_ascii (secret alice)))
    by (eexists; reflexivity).
  split; [reflexivity|]. split; [exact Hsec|]. split.
  - exact (X16_create_report_rules (rt := py) alice (SStr "fills")
             (SStr "2019-01-01") (SStr "2019-02-01") (SStr "BTC-USD")
             (SStr "") (SStr "pdf") (SStr "") (respond ok_empty noon) eq_refl Hsec).
  - exact (X16_create_report_rules (rt := py) alice (SStr "fills")
             (SStr "2019-01-01") (SStr "2019-02-01") (SStr "")
             (SStr "") (SStr "pdf") (SStr "") (respond ok_empty noon) eq_refl Hsec).
Defined.

End ConcreteEndpoints.

Section ConcreteChannels.
Import WebSocket.

Lemma X17_witness :
  let ch := {| name := "ticker";
               product_ids := list_to_set ["BTC-USD"; "BTC-USD"; "ETH-USD"] |} in
  (forall X : gset string, elements X ≡ₚ elements X)
  /\ Channel_init "Ticker" (ManyIds ["BTC-USD"; "BTC-USD"; "ETH-USD"]) = inr ch
  /\ exists l,
       as_dict elements ch
       = PDict [ ("name", PScalar (SStr (name ch)));
                 ("product_ids", PList (map (fun s => PScalar (SStr s)) l)) ]
       /\ Channel_init (name ch) (ManyIds l) = inr ch.
Proof.
  cbv zeta.
  assert (Hp : forall X : gset string, elements X ≡ₚ elements X)
    by (intros; reflexivity).
  assert (Hc : Channel_init "Ticker"
                 (ManyIds ["BTC-USD"; "BTC-USD"; "ETH-USD"])
               = inr {| name := "ticker";
                        product_ids :=
                          list_to_set ["BTC-USD"; "BTC-USD"; "ETH-USD"] |})
    by reflexivity.
  split; [exact Hp|]. split; [exact Hc|].
  exact (X17_as_dict_round_trip elements Hp _ _ _ Hc).
Defined.

Lemma X18_witness :
  let ch := {| name := "ticker";
               product_ids := list_to_set ["BTC-USD"; "BTC-USD"; "ETH-USD"] |} in
  (forall X : gset string, elements X ≡ₚ elements X)
  /\ Channel_init "Ticker" (ManyIds ["BTC-USD"; "BTC-USD"; "ETH-USD"]) = inr ch
  /\ exists l,
       as_dict elements ch
       = PDict [ ("name", PScalar (SStr (lower "Ticker")));
                 ("product_ids", PList (map (fun s => PScalar (SStr s)) l)) ]
       /\ NoDup l
       /\ forall x, x ∈ l <-> x ∈ ["BTC-USD"; "BTC-USD"; "ETH-USD"].
Proof.
  cbv zeta.
  assert (Hp : forall X : gset string, elements X ≡ₚ elements X)
    by (intros; reflexivity).
  assert (Hc : Channel_init "Ticker"
                 (ManyIds ["BTC-USD"; "BTC-USD"; "ETH-USD"])
               = inr {| name := "ticker";
                        product_ids :=
                          list_to_set ["BTC-USD"; "BTC-USD"; "ETH-USD"] |})
    by reflexivity.
  split; [exact Hp|]. split; [exact Hc|].
  exact (X18_as_dict_lists_each_id_once elements Hp _ _ _ Hc).
Defined.

End ConcreteChannels.
